(** * A shallow embedding of the MarkLogic LoopBack connector (lib/ml.js)

    [lib/ml.js] holds two copies of the connector.  Every
    [MarkLogic.prototype.<op> = ...] of the second copy (lines 461 onwards)
    runs after the one of the first copy and replaces it, so the
    operations modelled here are the ones of the second copy.

    JavaScript values are modelled with an explicit heap of objects, so
    that aliasing and in-place mutation ([delete], property assignment)
    are visible.  Numbers are modelled as integers ([Z]): the code only
    moves them around and never computes with fractional values. *)

From Stdlib Require Import ZArith Ascii String.
From stdpp Require Import base list strings.


Local Open Scope string_scope.

(** ** JavaScript values and the heap *)

Definition loc := nat.

Inductive val : Type :=
| VUndef
| VNull
| VBool (b : bool)
| VNum (n : Z)
| VStr (s : string)
| VFun (name : string)   (** a function object, known by its [name] *)
| VRef (l : loc).        (** a (non-callable) object on the heap *)

(** Heap objects.  [OPlain pc props]: an ordinary object whose own
    enumerable properties are [props] (in creation order) and whose
    prototype chain provides the constructor named [pc] ([None]: no
    constructor, e.g. [Object.create(null)]). *)
Inductive obj : Type :=
| OPlain (proto_ctor : option string) (props : list (string * val))
| OArray (elems : list val)
| ORegExp (source flags : val)
| ODate (time : Z).

Abbreviation heap := (list obj) (only parsing).

Definition plain (props : list (string * val)) : obj := OPlain (Some "Object") props.

#[global] Instance val_eq_dec : EqDecision val.
Proof. solve_decision. Defined.
#[global] Instance obj_eq_dec : EqDecision obj.
Proof.
  intros o1 o2. unfold Decision.
  decide equality; try apply Z.eq_dec; solve_decision.
Defined.

(** Strict equality [===] (NaN is not modelled; functions are compared by
    name). *)
Definition js_seq (v w : val) : bool :=
  match v, w with
  | VUndef, VUndef | VNull, VNull => true
  | VBool a, VBool b => Bool.eqb a b
  | VNum a, VNum b => Z.eqb a b
  | VStr a, VStr b => String.eqb a b
  | VFun a, VFun b => String.eqb a b
  | VRef a, VRef b => Nat.eqb a b
  | _, _ => false
  end.

Definition truthy (v : val) : bool :=
  match v with
  | VUndef | VNull => false
  | VBool b => b
  | VNum n => negb (Z.eqb n 0)
  | VStr s => negb (String.eqb s "")
  | VFun _ | VRef _ => true
  end.

(** [typeof v === 'object'] *)
Definition typeof_object (v : val) : bool :=
  match v with VNull | VRef _ => true | _ => false end.

(** ** Decimal strings and array-index keys *)

Definition digit_char (d : nat) : ascii :=
  match d with
  | 0 => "0" | 1 => "1" | 2 => "2" | 3 => "3" | 4 => "4"
  | 5 => "5" | 6 => "6" | 7 => "7" | 8 => "8" | _ => "9"
  end%char.

Fixpoint string_of_nat_aux (fuel n : nat) (acc : string) : string :=
  match fuel with
  | O => acc
  | S f =>
      let acc' := String (digit_char (Nat.modulo n 10)) acc in
      if Nat.ltb n 10 then acc' else string_of_nat_aux f (Nat.div n 10) acc'
  end.

Definition string_of_nat (n : nat) : string := string_of_nat_aux (S n) n "".

Definition digit_of (c : ascii) : option nat :=
  match c with
  | "0"%char => Some 0%nat | "1"%char => Some 1%nat | "2"%char => Some 2%nat
  | "3"%char => Some 3%nat | "4"%char => Some 4%nat | "5"%char => Some 5%nat
  | "6"%char => Some 6%nat | "7"%char => Some 7%nat | "8"%char => Some 8%nat
  | "9"%char => Some 9%nat
  | _ => None
  end.

Fixpoint digits_value (s : string) (acc : Z) : option Z :=
  match s with
  | EmptyString => Some acc
  | String c r =>
      match digit_of c with
      | Some d => digits_value r (10 * acc + Z.of_nat d)%Z
      | None => None
      end
  end.

(** A property key is an array index when it is the canonical decimal form
    of an integer below 2^32 - 1; [Object.keys] lists those keys first, in
    increasing order, and the other keys in creation order. *)
Definition array_index (s : string) : option Z :=
  match s with
  | EmptyString => None
  | String c r =>
      match digits_value s 0 with
      | Some v =>
          if (Z.ltb v 4294967295 &&
              (negb (Ascii.eqb c "0"%char) || String.eqb r ""))%bool
          then Some v else None
      | None => None
      end
  end.

Fixpoint insert_by_index (k : string * Z) (l : list (string * Z)) : list (string * Z) :=
  match l with
  | [] => [k]
  | k' :: l' => if Z.leb k.2 k'.2 then k :: l else k' :: insert_by_index k l'
  end.

Definition js_key_order (ks : list string) : list string :=
  map fst (foldr (fun k acc =>
                     match array_index k with
                     | Some v => insert_by_index (k, v) acc
                     | None => acc
                     end) [] ks)
  ++ List.filter (fun k => match array_index k with Some _ => false | None => true end) ks.

(** Assignment [o[k] = v] on the property list of an ordinary object:
    an existing key keeps its place, a new key goes last. *)
Fixpoint assoc_set (props : list (string * val)) (k : string) (v : val) : list (string * val) :=
  match props with
  | [] => [(k, v)]
  | (k', v') :: r => if String.eqb k k' then (k, v) :: r else (k', v') :: assoc_set r k v
  end.

Fixpoint assoc_get (props : list (string * val)) (k : string) : option val :=
  match props with
  | [] => None
  | (k', v') :: r => if String.eqb k k' then Some v' else assoc_get r k
  end.

Definition assoc_del (props : list (string * val)) (k : string) : list (string * val) :=
  List.filter (fun kv => negb (String.eqb kv.1 k)) props.

(** ** A state and exception monad *)

Inductive exn : Type :=
| TypeError
| ReferenceError
| SyntaxError
| NotModelled.   (** a behaviour this embedding does not cover *)

Inductive res (S A : Type) : Type :=
| Ok (a : A) (s : S)
| Throw (e : exn) (s : S)
| NoFuel.
Arguments Ok {S A} a s.
Arguments Throw {S A} e s.
Arguments NoFuel {S A}.

Definition M (S A : Type) : Type := S -> res S A.

Definition ret {S A} (a : A) : M S A := fun s => Ok a s.
Definition throw {S A} (e : exn) : M S A := fun s => Throw e s.
Definition bind {S A B} (m : M S A) (k : A -> M S B) : M S B :=
  fun s => match m s with
           | Ok a s' => k a s'
           | Throw e s' => Throw e s'
           | NoFuel => NoFuel
           end.

Declare Scope js_scope.
Delimit Scope js_scope with js.
Notation "'let*' x ':=' m 'in' k" := (bind m (fun x => k))
  (at level 200, x name, m at level 100, k at level 200) : js_scope.
Notation "m ;;; k" := (bind m (fun _ => k)) (at level 100, right associativity) : js_scope.
Local Open Scope js_scope.

Fixpoint iterM {S A} (f : A -> M S unit) (l : list A) : M S unit :=
  match l with
  | [] => ret tt
  | x :: r => f x ;;; iterM f r
  end.

Fixpoint mapM {S A B} (f : A -> M S B) (l : list A) : M S (list B) :=
  match l with
  | [] => ret []
  | x :: r => let* y := f x in let* ys := mapM f r in ret (y :: ys)
  end.

(** ** Heap primitives *)

Definition alloc (o : obj) : M heap val :=
  fun h => Ok (VRef (List.length h)) (h ++ [o])%list.

(** [v[k]] *)
Definition get_prop_in (h : heap) (v : val) (k : string) : exn + val :=
  match v with
  | VUndef | VNull => inl TypeError
  | VBool _ => inr (if String.eqb k "constructor" then VFun "Boolean" else VUndef)
  | VNum _ => inr (if String.eqb k "constructor" then VFun "Number" else VUndef)
  | VStr s =>
      if String.eqb k "constructor" then inr (VFun "String")
      else if String.eqb k "length" then inr (VNum (Z.of_nat (String.length s)))
      else match array_index k with
           | Some i => match String.get (Z.to_nat i) s with
                       | Some c => inr (VStr (String c EmptyString))
                       | None => inr VUndef
                       end
           | None => inr VUndef
           end
  | VFun n =>
      if String.eqb k "name" then inr (VStr n)
      else if String.eqb k "constructor" then inr (VFun "Function") else inr VUndef
  | VRef l =>
      match h !! l with
      | Some (OPlain pc props) =>
          match assoc_get props k with
          | Some x => inr x
          | None =>
              if String.eqb k "constructor"
              then inr (match pc with Some c => VFun c | None => VUndef end)
              else inr VUndef
          end
      | Some (OArray es) =>
          if String.eqb k "constructor" then inr (VFun "Array")
          else if String.eqb k "length" then inr (VNum (Z.of_nat (List.length es)))
          else match array_index k with
               | Some i => inr (default VUndef (es !! Z.to_nat i))
               | None => inr VUndef
               end
      | Some (ORegExp _ _) => inr (if String.eqb k "constructor" then VFun "RegExp" else VUndef)
      | Some (ODate _) => inr (if String.eqb k "constructor" then VFun "Date" else VUndef)
      | None => inl NotModelled
      end
  end.

Definition get_prop (v : val) (k : string) : M heap val :=
  fun h => match get_prop_in h v k with
           | inl e => Throw e h
           | inr x => Ok x h
           end.

(** [v[k] = x] (sloppy mode: ignored on primitives). *)
Definition set_prop (v : val) (k : string) (x : val) : M heap unit :=
  fun h => match v with
           | VUndef | VNull => Throw TypeError h
           | VRef l =>
               match h !! l with
               | Some (OPlain pc props) => Ok tt (<[l := OPlain pc (assoc_set props k x)]> h)
               | _ => Throw NotModelled h
               end
           | _ => Ok tt h
           end.

(** [delete v[k]] (sloppy mode: no effect on primitives). *)
Definition delete_prop (v : val) (k : string) : M heap unit :=
  fun h => match v with
           | VUndef | VNull => Throw TypeError h
           | VRef l =>
               match h !! l with
               | Some (OPlain pc props) => Ok tt (<[l := OPlain pc (assoc_del props k)]> h)
               | _ => Throw NotModelled h
               end
           | _ => Ok tt h
           end.

(** [Object.keys(v)] *)
Definition own_keys (v : val) : M heap (list string) :=
  fun h => match v with
           | VUndef | VNull => Throw TypeError h
           | VStr s => Ok (map string_of_nat (seq 0 (String.length s))) h
           | VRef l =>
               match h !! l with
               | Some (OPlain _ props) => Ok (js_key_order (map fst props)) h
               | Some (OArray es) => Ok (map string_of_nat (seq 0 (List.length es))) h
               | Some _ => Ok [] h
               | None => Throw NotModelled h
               end
           | _ => Ok [] h
           end.

Definition is_array (v : val) : M heap bool :=
  fun h => match v with
           | VRef l => match h !! l with Some (OArray _) => Ok true h | _ => Ok false h end
           | _ => Ok false h
           end.

(** [arr.map(f)] *)
Definition array_map (f : val -> M heap val) (v : val) : M heap val :=
  fun h => match v with
           | VRef l =>
               match h !! l with
               | Some (OArray es) => bind (mapM f es) (fun ys => alloc (OArray ys)) h
               | _ => (let* m := get_prop v "map" in
                       match m with
                       | VFun _ => throw NotModelled   (* a user-supplied method *)
                       | _ => throw TypeError          (* cond.map is not a function *)
                       end) h
               end
           | _ => (let* m := get_prop v "map" in throw TypeError) h
           end.

(** ** Models *)

(** What the connector asks the model metadata about a model. *)
Record model : Type := {
  m_name : string;          (** the model name *)
  m_idName : val;           (** [self.idName(model)]: the id property, or undefined *)
  m_idNames : list string   (** [self.idNames(model)] *)
}.

(** ** [MarkLogic.prototype.buildWhere] (lib/ml.js, lines 860-918) *)

Section BuildWhere.

(** Whether [new RegExp(pattern, flags)] accepts its arguments is up to the
    regular-expression engine. *)
Variable regexp_ok : val -> val -> bool.

Definition new_regexp (pat flags : val) : M heap val :=
  if regexp_ok pat flags then alloc (ORegExp pat flags) else throw SyntaxError.

Definition logical_key (k : string) : bool :=
  (String.eqb k "and" || String.eqb k "or" || String.eqb k "nor")%bool.

(** [if (k === idName) { k = '_uri'; }] *)
Definition where_key (m : model) (k : string) : string :=
  if js_seq (VStr k) (m_idName m) then "_uri" else k.

(** The body of [Object.keys(where_).forEach(function (k) { ... })];
    [rec] is [self.buildWhere(model, .)]. *)
Definition buildWhere_entry (rec : val -> M heap val) (m : model)
    (query where_ : val) (k0 : string) : M heap unit :=
  let* cond := get_prop where_ k0 in
  let k := where_key m k0 in
  if logical_key k then
    let* arr := is_array cond in
    let* cond := (if arr then array_map rec cond else ret cond) in
    set_prop query ("$" ++ k) cond ;;;
    delete_prop query k
  else
    let* dispatched :=
      (if truthy cond then
         let* ctor := get_prop cond "constructor" in
         let* cname := get_prop ctor "name" in
         if js_seq cname (VStr "Object") then
           let* options := get_prop cond "options" in
           let* ks := own_keys cond in
           let spec := match ks with s :: _ => VStr s | [] => VUndef end in
           let* cond' := get_prop cond (match ks with s :: _ => s | [] => "undefined" end) in
           ret (spec, options, cond')
         else ret (VBool false, VNull, cond)
       else ret (VBool false, VNull, cond)) in
    match dispatched with (spec, options, cond) =>
    if truthy spec then
      let s := match spec with VStr s => s | _ => "" end in
      if String.eqb s "between" then
        let* lo := get_prop cond "0" in
        let* hi := get_prop cond "1" in
        let* o := alloc (plain [("$gte", lo); ("$lte", hi)]) in
        set_prop query k o
      else if String.eqb s "inq" then
        let* arr := array_map (fun x => ret x) cond in
        let* o := alloc (plain [("$in", arr)]) in
        set_prop query k o
      else if String.eqb s "like" then
        let* r := new_regexp cond options in
        let* o := alloc (plain [("$regex", r)]) in
        set_prop query k o
      else if String.eqb s "nlike" then
        let* r := new_regexp cond options in
        let* o := alloc (plain [("$not", r)]) in
        set_prop query k o
      else if String.eqb s "neq" then
        let* o := alloc (plain [("$ne", cond)]) in
        set_prop query k o
      else
        let* o := alloc (plain []) in
        set_prop query k o ;;;
        let* t := get_prop query k in
        set_prop t ("$" ++ s) cond
    else
      if js_seq cond VNull then
        let* o := alloc (plain [("$type", VNum 10)]) in
        set_prop query k o
      else set_prop query k cond
    end.

(** The recursion of [buildWhere] goes through the heap (nested [and] /
    [or] / [nor] arrays), so it is bounded by [fuel]; [NoFuel] stands for
    a call that would not return. *)
Fixpoint buildWhere (fuel : nat) (m : model) (where_ : val) : M heap val :=
  match fuel with
  | O => fun _ => NoFuel
  | S f =>
      let* query := alloc (plain []) in
      if (js_seq where_ VNull || negb (typeof_object where_))%bool then ret query
      else
        let* ks := own_keys where_ in
        iterM (buildWhere_entry (buildWhere f m) m query where_) ks ;;;
        ret query
  end.

End BuildWhere.

Definition Widget : model := {| m_name := "Widget"; m_idName := VStr "id"; m_idNames := ["id"] |}.
Definition any_regexp (_ _ : val) : bool := true.

(** ** The sort order of [all] (its callback [processResponse]) *)

















(** ** [parseUpdateData] *)

Definition acceptedOperators : list string :=
  [ (* Field operators *)
    "$currentDate"; "$inc"; "$max"; "$min"; "$mul"; "$rename"; "$setOnInsert"; "$set"; "$unset";
    (* Array operators *)
    "$addToSet"; "$pop"; "$pullAll"; "$pull"; "$pushAll"; "$push";
    (* Bitwise operator *)
    "$bit" ].

(** The [for] loop over [acceptedOperators], from the operator list [ops]
    on, with [usedOperators] counted so far. *)
Fixpoint parse_operators (parsedData data : val) (ops : list string) (usedOperators : nat)
    : M heap nat :=
  match ops with
  | [] => ret usedOperators
  | op :: rest =>
      let* x := get_prop data op in
      let* used :=
        (if truthy x then
           let* y := get_prop data op in
           set_prop parsedData op y ;;;
           ret (S usedOperators)
         else ret usedOperators) in
      parse_operators parsedData data rest used
  end.

(** [parseUpdateData(model, data)], where [allowExtendedOperators] is
    [this.settings.allowExtendedOperators]. *)
Definition parseUpdateData (allowExtendedOperators : val) (data : val) : M heap val :=
  let* parsedData := alloc (plain []) in
  (if js_seq allowExtendedOperators (VBool true) then
     let* usedOperators := parse_operators parsedData data acceptedOperators 0 in
     if Nat.eqb usedOperators 0 then set_prop parsedData "$set" data else ret tt
   else set_prop parsedData "$set" data) ;;;
  ret parsedData.

(** ** Strings of primitive values *)

Definition string_of_Z (z : Z) : string :=
  match z with
  | Z0 => "0"
  | Zpos p => string_of_nat (Pos.to_nat p)
  | Zneg p => "-" ++ string_of_nat (Pos.to_nat p)
  end.

(** [String(v)] (and ['' + v]) on a primitive; objects and functions,
    whose conversion runs their [toString], are not modelled. *)
Definition js_to_string (v : val) : M heap string :=
  match v with
  | VUndef => ret "undefined"
  | VNull => ret "null"
  | VBool b => ret (if b then "true" else "false")
  | VNum n => ret (string_of_Z n)
  | VStr s => ret s
  | VFun _ | VRef _ => throw NotModelled
  end.

(** ** Connection settings, field selections and collection names *)

(** [a || b], with [b] evaluated only when [a] is falsy. *)
Definition js_or (a : val) (b : M heap val) : M heap val :=
  if truthy a then ret a else b.

(** [generateConnectionObject(options)] (lib/ml.js, lines 461-474): fills
    in the defaults on [options] itself and returns the connection
    object.  The local [username] is computed and never used. *)
Definition generateConnectionObject (options : val) : M heap val :=
  let* hostname :=
    (let* a := get_prop options "hostname" in
     js_or a (let* b := get_prop options "host" in js_or b (ret (VStr "127.0.0.1")))) in
  set_prop options "hostname" hostname ;;;
  let* port := (let* a := get_prop options "port" in js_or a (ret (VNum 8000))) in
  set_prop options "port" port ;;;
  let* database :=
    (let* a := get_prop options "database" in
     js_or a (let* b := get_prop options "db" in js_or b (ret (VStr "documents")))) in
  set_prop options "database" database ;;;
  let* authType := (let* a := get_prop options "authType" in js_or a (ret (VStr "DIGEST"))) in
  set_prop options "authType" authType ;;;
  let* _username := (let* a := get_prop options "username" in js_or a (get_prop options "user")) in
  let* host := get_prop options "hostname" in
  let* port' := get_prop options "port" in
  let* user := get_prop options "username" in
  let* password := get_prop options "password" in
  let* authType' := get_prop options "authType" in
  alloc (plain [("host", host); ("port", port'); ("user", user);
                ("password", password); ("authType", authType')]).

(** The properties every ordinary object inherits from [Object.prototype]
    (none of them enumerable). *)
Definition object_proto_names : list string :=
  ["constructor"; "hasOwnProperty"; "isPrototypeOf"; "propertyIsEnumerable";
   "toLocaleString"; "toString"; "valueOf"; "__proto__"; "__defineGetter__";
   "__defineSetter__"; "__lookupGetter__"; "__lookupSetter__"].

(** [k in v]: own properties, then those of the prototype chain; the
    chains of other constructors, arrays, regular expressions and dates
    are not modelled. *)
Definition has_property (v : val) (k : string) : M heap bool :=
  fun h => match v with
           | VRef l =>
               match h !! l with
               | Some (OPlain pc props) =>
                   match assoc_get props k with
                   | Some _ => Ok true h
                   | None =>
                       match pc with
                       | None => Ok false h
                       | Some c =>
                           if String.eqb c "Object"
                           then Ok (bool_decide (k ∈ object_proto_names)) h
                           else Throw NotModelled h
                       end
                   end
               | _ => Throw NotModelled h
               end
           | VFun _ => Throw NotModelled h
           | _ => Throw TypeError h
           end.

(** The keys [for (var f in v)] visits: the own enumerable keys of an
    ordinary object whose prototype chain ([Object.prototype] or none)
    has no enumerable property, in [Object.keys] order. *)
Definition for_in_keys (v : val) : M heap (list string) :=
  fun h => match v with
           | VUndef | VNull | VBool _ | VNum _ => Ok [] h
           | VRef l =>
               match h !! l with
               | Some (OPlain None props) => Ok (js_key_order (map fst props)) h
               | Some (OPlain (Some c) props) =>
                   if String.eqb c "Object" then Ok (js_key_order (map fst props)) h
                   else Throw NotModelled h
               | _ => Throw NotModelled h
               end
           | _ => Throw NotModelled h
           end.

Fixpoint index_of_from (es : list val) (x : val) (i : Z) : Z :=
  match es with
  | [] => (-1)%Z
  | e :: r => if js_seq e x then i else index_of_from r x (i + 1)%Z
  end.

(** [arr.indexOf(x)] on an array. *)
Definition array_index_of (v x : val) : M heap Z :=
  fun h => match v with
           | VRef l =>
               match h !! l with
               | Some (OArray es) => Ok (index_of_from es x 0) h
               | _ => Throw NotModelled h
               end
           | _ => Throw NotModelled h
           end.

(** [idIncluded(fields, idName)] (lib/ml.js, lines 839-858). *)
Definition idIncluded (fields idName : val) : M heap bool :=
  if negb (truthy fields) then ret true else
  let* arr := is_array fields in
  if arr then
    let* i := array_index_of fields idName in
    ret (Z.leb 0 i)
  else
    let* k := js_to_string idName in
    let* x := get_prop fields k in
    if truthy x then ret true else
    let* k' := js_to_string idName in
    let* b := has_property fields k' in
    let* excluded :=
      (if b then
         let* k'' := js_to_string idName in
         let* y := get_prop fields k'' in
         ret (negb (truthy y))
       else ret false) in
    if excluded then ret false else
    let* fs := for_in_keys fields in
    match fs with
    | [] => ret true
    | f :: _ => let* z := get_prop fields f in ret (negb (truthy z))
    end.

(** [MarkLogic.prototype.collectionName(model)] (lib/ml.js, lines
    548-554), where [models] is [this._models]. *)
Definition collectionName (models : val) (model : string) : M heap val :=
  let* modelClass := get_prop models model in
  let* settings := get_prop modelClass "settings" in
  let* mls := get_prop settings "ml" in
  if truthy mls then
    let* settings' := get_prop modelClass "settings" in
    let* mls' := get_prop settings' "ml" in
    let* c := get_prop mls' "collection" in
    js_or c (ret (VStr model))
  else ret (VStr model).

(** ** The connector's operations against the store *)

(** What the rest of the world sees of an operation: the requests it sends
    to the store and the calls of its completion callback. *)
Inductive event : Type :=
| EExec (command : string) (params : list val)
| ECall (f : val) (args : list val).

Section Connector.

(** The documents held by the store. *)
Variable D : Type.

Record st : Type := mk_st { st_heap : heap; st_docs : D; st_log : list event }.

(** The store: [collection[command].apply(collection, params)], answering
    [(err, result)] to the callback [execute] gives it.  It belongs to the
    MarkLogic client, outside this repository. *)
Variable store : string -> list val -> M st (val * val).

(** [getIdValue] and [setIdValue] of the base class [Connector]
    (loopback-connector), outside this repository. *)
Variable getIdValue : model -> val -> M heap val.
Variable setIdValue : model -> val -> val -> M heap unit.

(** [this.settings.allowExtendedOperators] *)
Variable allowExtendedOperators : val.

(** The validity test of [new RegExp] and the recursion bound of
    [buildWhere]. *)
Variable regexp_ok : val -> val -> bool.
Variable fuel : nat.

(** The global object's properties (Node.js globals). *)
Variable globals : list (string * val).

(** The connector instance ([this], [self]). *)
Variable connector : val.

Definition lift {A} (c : M heap A) : M st A :=
  fun s => match c (st_heap s) with
           | Ok a h => Ok a (mk_st h (st_docs s) (st_log s))
           | Throw e h => Throw e (mk_st h (st_docs s) (st_log s))
           | NoFuel => NoFuel
           end.

Definition emit (e : event) : M st unit :=
  fun s => Ok tt (mk_st (st_heap s) (st_docs s) (st_log s ++ [e])%list).

(** [f(args)] *)
Definition call (f : val) (args : list val) : M st unit :=
  match f with
  | VFun _ => emit (ECall f args)
  | _ => throw TypeError
  end.

(** [f && f(args)] *)
Definition call_opt (f : val) (args : list val) : M st unit :=
  if truthy f then call f args else ret tt.

(** [this.execute(model, command, ...params, callback)]: with no observer
    registered, [notifyObserversAround] runs the command, whose answer
    reaches [callback] through [done]. *)
Definition execute (command : string) (params : list val) (callback : val -> val -> M st unit)
    : M st unit :=
  emit (EExec command params) ;;;
  let* r := store command params in
  callback r.1 r.2.

(** [data[k]] with a primitive [k]. *)
Definition to_key (k : val) : M heap string := js_to_string k.

(** Resolution of an identifier along the scope chain [env]; an
    unresolvable one throws a ReferenceError. *)
Definition lookup_var (env : list (string * val)) (x : string) : M st val :=
  match assoc_get env x with
  | Some v => ret v
  | None => throw ReferenceError
  end.

(** The names the module's top level declares (both copies of the
    connector), and those of the CommonJS module wrapper. *)
Definition module_scope : list (string * val) :=
  [("ml", VUndef); ("util", VUndef); ("async", VUndef); ("Connector", VFun "Connector");
   ("debug", VFun "debug"); ("qb", VUndef);
   ("generateConnectionObject", VFun "generateConnectionObject");
   ("MarkLogic", VFun "MarkLogic"); ("idIncluded", VFun "idIncluded");
   ("exports", VUndef); ("require", VFun "require"); ("module", VUndef);
   ("__filename", VUndef); ("__dirname", VUndef)].

(** The scope chain inside [updateOrCreate]: its [var]s and parameters,
    its own name, then the module and the global scope. *)
Definition updateOrCreate_env (m : model) (data options callback id idName : val)
    : list (string * val) :=
  [("self", connector); ("id", id); ("idName", idName);
   ("model", VStr (m_name m)); ("data", data); ("options", options); ("callback", callback);
   ("updateOrCreate", VFun "updateOrCreate"); ("arguments", VUndef); ("this", connector)]
  ++ module_scope ++ globals.

(** [MarkLogic.prototype.updateOrCreate(model, data, options, callback)]
    ([if (self.debug) debug(...)] only logs and is left out). *)
Definition updateOrCreate (m : model) (data options callback : val) : M st unit :=
  let* id := lift (getIdValue m data) in
  let idName := m_idName m in
  let* k := lift (to_key idName) in
  lift (delete_prop data k) ;;;
  let* data' := lift (parseUpdateData allowExtendedOperators data) in
  let env := updateOrCreate_env m data' options callback id idName in
  (* [{_uri: uri}] *)
  let* uri := lookup_var env "uri" in
  let* q := lift (alloc (plain [("_uri", uri)])) in
  let* inner := lift (alloc (OArray [VStr "_uri"; VStr "asc"])) in
  let* sort := lift (alloc (OArray [inner])) in
  let* opts := lift (alloc (plain [("upsert", VBool true); ("new", VBool true)])) in
  execute "findAndModify" [q; sort; data'; opts] (fun err result =>
    let* object := (if truthy result then lift (get_prop result "value") else ret result) in
    let* err :=
      (if (negb (truthy err) && negb (truthy object))%bool then
         let* u := lift (js_to_string uri) in
         ret (VStr ("No " ++ m_name m ++ " found for uri " ++ u))
       else ret err) in
    (if negb (truthy err) then
       lift (setIdValue m object uri) ;;;
       (if (truthy object && negb (js_seq idName (VStr "_uri")))%bool
        then lift (delete_prop object "_uri") else ret tt)
     else ret tt) ;;;
    let* leo := (if truthy result then lift (get_prop result "lastErrorObject") else ret result) in
    let* info :=
      (if truthy leo then
         let* ue := lift (get_prop leo "updatedExisting") in
         lift (alloc (plain [("isNewInstance", VBool (negb (truthy ue)))]))
       else ret VUndef) in
    call_opt callback [err; object; info]).

(** [MarkLogic.prototype.updateAll(model, where, data, options, cb)] *)
Definition updateAll (m : model) (where_ data options cb : val) : M st unit :=
  let idName := m_idName m in
  let* where' := lift (buildWhere regexp_ok fuel m where_) in
  let* k := lift (to_key idName) in
  lift (delete_prop data k) ;;;
  let* data' := lift (parseUpdateData allowExtendedOperators data) in
  let* opts := lift (alloc (plain [("multi", VBool true); ("upsert", VBool false)])) in
  execute "update" [where'; data'; opts] (fun err info =>
    if truthy err then call_opt cb [err]
    else
      (* [info.result ? info.result.n : undefined] *)
      let* r := lift (get_prop info "result") in
      let* affectedCount :=
        (if truthy r then
           let* r' := lift (get_prop info "result") in lift (get_prop r' "n")
         else ret VUndef) in
      let* o := lift (alloc (plain [("count", affectedCount)])) in
      call_opt cb [err; o]).

(** [MarkLogic.prototype.updateAttributes(model, uri, data, options, cb)] *)
Definition updateAttributes (m : model) (uri data options cb : val) : M st unit :=
  let* data' := lift (parseUpdateData allowExtendedOperators data) in
  let idName := m_idName m in
  let* q := lift (alloc (plain [("_uri", uri)])) in
  let* inner := lift (alloc (OArray [VStr "_uri"; VStr "asc"])) in
  let* sort := lift (alloc (OArray [inner])) in
  let* opts := lift (alloc (plain [])) in
  execute "findAndModify" [q; sort; data'; opts] (fun err result =>
    let* object := (if truthy result then lift (get_prop result "value") else ret result) in
    let* err :=
      (if (negb (truthy err) && negb (truthy object))%bool then
         let* u := lift (js_to_string uri) in
         ret (VStr ("No " ++ m_name m ++ " found for uri " ++ u))
       else ret err) in
    lift (setIdValue m object uri) ;;;
    (if (truthy object && negb (js_seq idName (VStr "_uri")))%bool
     then lift (delete_prop object "_uri") else ret tt) ;;;
    call_opt cb [err; object]).

(** [typeof v === 'function'] *)
Definition typeof_function (v : val) : bool :=
  match v with VFun _ => true | _ => false end.

(** [MarkLogic.prototype.exists(model, uri, options, callback)] *)
Definition exists_ (m : model) (uri options callback : val) : M st unit :=
  let* q := lift (alloc (plain [("_uri", uri)])) in
  execute "findOne" [q] (fun err data =>
    call callback [err; VBool (negb (truthy err) && truthy data)]).

(** [MarkLogic.prototype.destroy(model, uri, options, callback)] *)
Definition destroy (m : model) (uri options callback : val) : M st unit :=
  let* q := lift (alloc (plain [("_uri", uri)])) in
  execute "remove" [q] (fun err result =>
    let* ops := (if truthy result then lift (get_prop result "ops") else ret result) in
    call_opt callback [err; ops]).

(** [MarkLogic.prototype.count(model, where, options, callback)] *)
Definition count (m : model) (where_ options callback : val) : M st unit :=
  let* where' := lift (buildWhere regexp_ok fuel m where_) in
  execute "count" [where'] (fun err c => call_opt callback [err; c]).

(** [MarkLogic.prototype.destroyAll(model, where, options, callback)] *)
Definition destroyAll (m : model) (where_ options callback : val) : M st unit :=
  let '(where_, callback) :=
    if (negb (truthy callback) && typeof_function where_)%bool
    then (VUndef, where_) else (where_, callback) in
  let* where' := lift (buildWhere regexp_ok fuel m where_) in
  let* q := (if truthy where' then ret where' else lift (alloc (plain []))) in
  execute "remove" [q] (fun err info =>
    if truthy err then call_opt callback [err]
    else
      (* [info.result ? info.result.n : undefined] *)
      let* r := lift (get_prop info "result") in
      let* affectedCount :=
        (if truthy r then
           let* r' := lift (get_prop info "result") in lift (get_prop r' "n")
         else ret VUndef) in
      let* o := lift (alloc (plain [("count", affectedCount)])) in
      call_opt callback [err; o]).

(** [MarkLogic.prototype.save(model, data, options, callback)] *)
Definition save (m : model) (data options callback : val) : M st unit :=
  let* idValue := lift (getIdValue m data) in
  let idName := m_idName m in
  execute "save" [data] (fun err result =>
    (if negb (truthy err) then
       lift (setIdValue m data idValue) ;;;
       (if negb (js_seq idName (VStr "_uri")) then lift (delete_prop data "_uri") else ret tt)
     else ret tt) ;;;
    let* info := lift (alloc (plain [])) in
    let* rr := (if truthy result then lift (get_prop result "result") else ret result) in
    (if truthy rr then
       let* r1 := lift (get_prop result "result") in
       let* ok := lift (get_prop r1 "ok") in
       let* recognised :=
         (if js_seq ok (VNum 1) then
            let* r2 := lift (get_prop result "result") in
            let* n := lift (get_prop r2 "n") in
            ret (js_seq n (VNum 1))
          else ret false) in
       if recognised then
         let* r3 := lift (get_prop result "result") in
         let* u := lift (get_prop r3 "upserted") in
         lift (set_prop info "isNewInstance" (VBool (truthy u)))
       else ret tt
     else ret tt) ;;;
    let* ops := (if truthy result then lift (get_prop result "ops") else ret result) in
    call_opt callback [err; ops; info]).

(** [this._models] *)
Variable models : val.

(** [MarkLogic.prototype.create(model, data, options, callback)] *)
Definition create (m : model) (data options callback : val) : M st unit :=
  let* idValue := lift (getIdValue m data) in
  let idName := m_idName m in
  execute "insert" [data] (fun err result =>
    if truthy err then call callback [err] else
    let* documents := lift (get_prop result "documents") in
    let* doc := lift (get_prop documents "0") in
    let* idValue := lift (get_prop doc "uri") in
    let* modelClass := lift (get_prop models (m_name m)) in
    let* properties := lift (get_prop modelClass "properties") in
    let* k := lift (to_key idName) in
    let* prop := lift (get_prop properties k) in
    let* idType := lift (get_prop prop "type") in
    let* idValue :=
      (if js_seq idType (VFun "String")
       then let* str := lift (js_to_string idValue) in ret (VStr str)
       else ret idValue) in
    let* k' := lift (to_key idName) in
    lift (set_prop data k' idValue) ;;;
    call callback [err; if truthy err then VNull else idValue]).

End Connector.

Arguments st_heap {D} _.
Arguments st_docs {D} _.
Arguments st_log {D} _.
Arguments mk_st {D} _ _ _.

(** ** Inputs, heaps and instances of the parameters used by the examples and witnesses below *)

(** [cond.constructor.name], when it evaluates without throwing. *)
Definition ctor_name (h : heap) (v : val) : option val :=
  match get_prop_in h v "constructor" with
  | inr c => match get_prop_in h c "name" with inr n => Some n | inl _ => None end
  | inl _ => None
  end.

Definition between_heap : heap :=
  [OArray [VNum 18; VNum 30]; plain [("between", VRef 0)]; plain [("age", VRef 1)]].

Definition null_ctor_heap : heap :=
  [plain [("constructor", VNull)]; plain [("x", VRef 0)]].

(** A [Date] condition: [{when: new Date(0)}]. *)
Definition date_heap : heap := [ODate 0; plain [("when", VRef 0)]].


(** The operators of [ops] that the plain object with properties [props]
    holds with a truthy value, with those values, in the order of [ops]. *)
Definition truthy_operators (props : list (string * val)) (ops : list string)
    : list (string * val) :=
  flat_map (fun op => match assoc_get props op with
                      | Some v => if truthy v then [(op, v)] else []
                      | None => []
                      end) ops.

Definition inc_zero_heap : heap := [plain [("$inc", VNum 0)]].

(** [getIdValue] and [setIdValue] as the base class [Connector] defines
    them ([data && data[idName]]; [if (data) data[idName] = value]), and a
    store that answers every request with [(null, null)]: an instance of
    the parameters of the connector, for the witnesses below. *)
Definition base_getIdValue (m : model) (data : val) : M heap val :=
  if truthy data then let* k := to_key (m_idName m) in get_prop data k else ret data.

Definition base_setIdValue (m : model) (data v : val) : M heap unit :=
  if truthy data then let* k := to_key (m_idName m) in set_prop data k v else ret tt.

Definition null_store (_ : string) (_ : list val) : M (st unit) (val * val) := ret (VNull, VNull).

Definition widget_data_heap : heap := [plain [("id", VNum 7); ("name", VStr "b")]].

(** A store answering every request with [(null, {result: {n: 0}})] and
    leaving its documents as they are. *)
Definition zero_update_store (D : Type) (_ : string) (_ : list val) : M (st D) (val * val) :=
  fun s => let h := st_heap s in
           Ok (VNull, VRef (List.length h + 1))
              (mk_st (h ++ [plain [("n", VNum 0)]; plain [("result", VRef (List.length h))]])%list
                     (st_docs s) (st_log s)).

Definition update_heap : heap :=
  [plain [("name", VStr "x")]; plain [("id", VNum 7); ("name", VStr "y")]].

(** A store holding documents at the uris listed in its state; on a miss,
    [findAndModify] answers [(null, {value: null})]. *)
Definition uri_doc_at (docs : list val) (u : val) : bool := bool_decide (u ∈ docs).

Definition uri_store (_ : string) (params : list val) : M (st (list val)) (val * val) :=
  fun s =>
    let h := st_heap s in
    match params with
    | q :: _ =>
        match get_prop_in h q "_uri" with
        | inr u =>
            if uri_doc_at (st_docs s) u
            then Ok (VNull, VRef (List.length h))
                    (mk_st (h ++ [plain [("value", VRef (List.length h + 1))]; plain [("_uri", u)]])%list
                           (st_docs s) (st_log s))
            else Ok (VNull, VRef (List.length h))
                    (mk_st (h ++ [plain [("value", VNull)]])%list (st_docs s) (st_log s))
        | inl e => Throw e s
        end
    | [] => Ok (VNull, VNull) s
    end.

Definition attrs_heap : heap := [plain [("name", VStr "b")]].

(** A model whose id property is the locator [_uri] itself. *)
Definition UriWidget : model :=
  {| m_name := "Widget"; m_idName := VStr "_uri"; m_idNames := ["_uri"] |}.

(** The value [o[k]] reads from an ordinary object with properties
    [props], for a key [k] other than [constructor]. *)
Definition pget (props : list (string * val)) (k : string) : val :=
  match assoc_get props k with Some v => v | None => VUndef end.

(** Settings with a [host] and a [user] but no [hostname] or [username]. *)
Definition conn_settings_heap : heap :=
  [plain [("host", VStr "db.local"); ("user", VStr "admin"); ("password", VStr "pw")]].

Definition fields_array_heap : heap := [OArray [VStr "name"; VStr "id"]].

Definition fields_excl_heap : heap := [plain [("id", VBool false); ("name", VBool true)]].

Definition fields_incl_heap : heap := [plain [("name", VBool true)]].

Definition models_heap : heap :=
  [plain [("Widget", VRef 1)]; plain [("settings", VRef 2)]; plain [("ml", VRef 3)];
   plain [("collection", VStr "widgets")]].

(** A store that finds every requested document: it answers
    [(null, <the first object of the heap>)]. *)
Definition found_store (_ : string) (_ : list val) : M (st unit) (val * val) :=
  fun s => Ok (VNull, VRef 0) s.

(** A store that answers [(null, 3)] to every request. *)
Definition three_store (_ : string) (_ : list val) : M (st unit) (val * val) :=
  fun s => Ok (VNull, VNum 3) s.

(** A store answering every request with [(null, {result: {n: 2}})]. *)
Definition two_removed_store (_ : string) (_ : list val) : M (st unit) (val * val) :=
  fun s => let h := st_heap s in
           Ok (VNull, VRef (List.length h + 1))
              (mk_st (h ++ [plain [("n", VNum 2)]; plain [("result", VRef (List.length h))]])%list
                     (st_docs s) (st_log s)).

(** A store failing every request with the error ['boom']. *)
Definition failing_store (_ : string) (_ : list val) : M (st unit) (val * val) :=
  fun s => Ok (VStr "boom", VUndef) s.

(** A store answering [save] with [(null, {result: {ok: 1, n: 1, upserted: true}, ops: 'op'})]. *)
Definition upsert_store (_ : string) (_ : list val) : M (st unit) (val * val) :=
  fun s => let h := st_heap s in
           Ok (VNull, VRef (List.length h + 1))
              (mk_st (h ++ [plain [("ok", VNum 1); ("n", VNum 1); ("upserted", VBool true)];
                            plain [("result", VRef (List.length h)); ("ops", VStr "op")]])%list
                     (st_docs s) (st_log s)).

(** The data of [create] at 0, and the model registry [{Widget: {properties: {id: {type: String}}}}] at 1. *)
Definition create_heap : heap :=
  [plain [("name", VStr "b")]; plain [("Widget", VRef 2)]; plain [("properties", VRef 3)];
   plain [("id", VRef 4)]; plain [("type", VFun "String")]].

(** A store answering [insert] with [(null, {documents: [{uri: 9}]})]. *)
Definition insert_store (_ : string) (_ : list val) : M (st unit) (val * val) :=
  fun s => let h := st_heap s in
           Ok (VNull, VRef (List.length h + 2))
              (mk_st (h ++ [plain [("uri", VNum 9)]; OArray [VRef (List.length h)];
                            plain [("documents", VRef (List.length h + 1))]])%list
                     (st_docs s) (st_log s)).

(** A store answering [insert] with [(null, {documents: []})]. *)
Definition empty_insert_store (_ : string) (_ : list val) : M (st unit) (val * val) :=
  fun s => let h := st_heap s in
           Ok (VNull, VRef (List.length h + 1))
              (mk_st (h ++ [OArray []; plain [("documents", VRef (List.length h))]])%list
                     (st_docs s) (st_log s)).

Example buildWhere_between_example :
  let h0 := [OArray [VNum 18; VNum 30]; plain [("between", VRef 0)]; plain [("age", VRef 1)]] in
  buildWhere any_regexp 3 Widget (VRef 2) h0
  = Ok (VRef 3) (h0 ++ [plain [("age", VRef 4)]; plain [("$gte", VNum 18); ("$lte", VNum 30)]])%list.
Proof. vm_compute. reflexivity. Qed.

Example buildWhere_keys_example :
  let h0 := [plain [("b", VNum 1); ("10", VNum 2); ("id", VStr "u"); ("2", VNull)]] in
  buildWhere any_regexp 3 Widget (VRef 0) h0
  = Ok (VRef 1) (h0 ++ [plain [("2", VRef 2); ("10", VNum 2); ("b", VNum 1); ("_uri", VStr "u")];
                        plain [("$type", VNum 10)]])%list.
Proof. vm_compute. reflexivity. Qed.

(** ** Evaluation on a heap with a symbolic prefix

    The lemmas below evaluate the embedding on heaps [h ++ t] whose
    prefix [h] is arbitrary: old locations are read through hypotheses on
    [h], new ones are computed in the concrete suffix [t]. *)

Lemma lookup_old (h t : heap) (l : loc) (o : obj) :
  h !! l = Some o -> (h ++ t)%list !! l = Some o.
Proof. intros H. by apply lookup_app_l_Some. Qed.

Lemma lookup_new0 (h t : heap) (o : obj) : (h ++ o :: t)%list !! List.length h = Some o.
Proof. apply list_lookup_middle. done. Qed.

Lemma lookup_new (h t : heap) (i : nat) : (h ++ t)%list !! (List.length h + i)%nat = t !! i.
Proof. rewrite lookup_app_r by lia. f_equal. lia. Qed.

Lemma insert_new0 (h t : heap) (o x : obj) : <[List.length h := x]> (h ++ o :: t)%list = (h ++ x :: t)%list.
Proof. pose proof (insert_app_r h (o :: t) 0 x) as E. rewrite Nat.add_0_r in E. exact E. Qed.

Lemma insert_new (h t : heap) (i : nat) (x : obj) :
  <[(List.length h + i)%nat := x]> (h ++ t)%list = (h ++ <[i := x]> t)%list.
Proof. apply insert_app_r. Qed.

Lemma js_key_order_single (k : string) : js_key_order [k] = [k].
Proof. unfold js_key_order. cbn. by destruct (array_index k). Qed.

Lemma get_prop_ext (h t : heap) (v : val) (k : string) (x : val) :
  get_prop_in h v k = inr x -> get_prop_in (h ++ t)%list v k = inr x.
Proof.
  destruct v as [| | | | | |l]; try (intros H; exact H).
  cbv beta iota delta [get_prop_in]. destruct (h !! l) as [o|] eqn:E; [|done].
  by rewrite (lookup_old h t l o E).
Qed.

Ltac heap_norm :=
  repeat first
    [ rewrite length_app
    | rewrite <- app_assoc
    | rewrite lookup_new0
    | rewrite lookup_new
    | rewrite insert_new0
    | rewrite insert_new
    | rewrite js_key_order_single
    | match goal with
      | H : ?h !! ?l = Some _ |- _ => rewrite (lookup_old h _ l _ H)
      | H : _ !! _ = Some _ |- _ => rewrite H
      | H : get_prop_in ?h ?v ?k = inr ?x |- _ => rewrite (get_prop_ext h _ v k x H)
      | H : _ = false |- _ => rewrite H
      | H : _ = true |- _ => rewrite H
      end
    | rewrite String.eqb_refl ].

Ltac js_run :=
  repeat (unfold bind, ret, throw, alloc, get_prop, set_prop, delete_prop,
                 own_keys, is_array, array_map, new_regexp in *;
          cbn -[where_key logical_key js_key_order]; simpl;
          heap_norm).

Lemma js_seq_true (v w : val) : js_seq v w = true <-> v = w.
Proof.
  destruct v, w; cbn; split; intros H; try discriminate; try congruence;
    try (apply Bool.eqb_prop in H || apply Z.eqb_eq in H || apply String.eqb_eq in H
         || apply Nat.eqb_eq in H); subst; try reflexivity;
    try (injection H as ->);
    try (apply Bool.eqb_reflx || apply Z.eqb_refl || apply String.eqb_refl || apply Nat.eqb_refl).
Qed.

Lemma js_seq_false (v w : val) : v <> w -> js_seq v w = false.
Proof. intros H. destruct (js_seq v w) eqn:E; [|done]. by apply js_seq_true in E. Qed.



(** ** Claims about [buildWhere] *)

(** C3: a filter entry [k: {between: [lo, hi]}] is translated to the native
    inclusive range [{$gte: lo, $lte: hi}] under [k], where [k] is
    rewritten to the locator field [_uri] when it is the id property. *)
Theorem buildWhere_between (ok : val -> val -> bool) (fuel : nat) (m : model)
    (h : heap) (lw lc la : loc) (pc : option string) (k : string) (lo hi : val) :
  h !! lw = Some (OPlain pc [(k, VRef lc)]) ->
  h !! lc = Some (plain [("between", VRef la)]) ->
  h !! la = Some (OArray [lo; hi]) ->
  logical_key (where_key m k) = false ->
  buildWhere ok (S fuel) m (VRef lw) h =
  Ok (VRef (List.length h))
     (h ++ [plain [(where_key m k, VRef (List.length h + 1))];
            plain [("$gte", lo); ("$lte", hi)]])%list.
Proof.
  intros Hw Hc Ha Hk.
  cbn. js_run. unfold buildWhere_entry. js_run. reflexivity.
Qed.

Lemma buildWhere_between_witness :
  buildWhere any_regexp 1 Widget (VRef 2) between_heap =
  Ok (VRef 3) (between_heap ++ [plain [("age", VRef 4)];
                                plain [("$gte", VNum 18); ("$lte", VNum 30)]])%list.
Proof.
  exact (buildWhere_between any_regexp 0 Widget between_heap 2 1 0 (Some "Object") "age"
           (VNum 18) (VNum 30) eq_refl eq_refl eq_refl eq_refl).
Defined.

(** C10 (counterexample): the condition [{constructor: null}] (as parsed
    from the JSON filter [{"x": {"constructor": null}}]) is a non-null value
    with no constructor name; [buildWhere] does not emit it unchanged but
    throws a TypeError on [cond.constructor.name]. *)
Lemma buildWhere_null_constructor_throws :
  ctor_name null_ctor_heap (VRef 0) = None /\
  buildWhere any_regexp 1 Widget (VRef 1) null_ctor_heap
  = Throw TypeError (null_ctor_heap ++ [plain []])%list.
Proof. split; vm_compute; reflexivity. Qed.

(** C10 (amended): a [null] condition becomes the native null-type test
    [{$type: 10}]; a non-null condition that is falsy, or whose
    [constructor.name] evaluates to something other than ['Object'], is
    emitted unchanged as a literal equality; a truthy condition whose
    [constructor] is [null] or [undefined], so that [constructor.name]
    cannot be read, makes [buildWhere] throw a TypeError. *)
Theorem buildWhere_condition_literal (ok : val -> val -> bool) (fuel : nat) (m : model)
    (h : heap) (lw : loc) (pc : option string) (k : string) (v : val) :
  h !! lw = Some (OPlain pc [(k, v)]) ->
  logical_key (where_key m k) = false ->
  (v = VNull ->
   buildWhere ok (S fuel) m (VRef lw) h =
   Ok (VRef (List.length h))
      (h ++ [plain [(where_key m k, VRef (List.length h + 1))];
             plain [("$type", VNum 10)]])%list) /\
  (v <> VNull ->
   (truthy v = true -> exists n, ctor_name h v = Some n /\ n <> VStr "Object") ->
   buildWhere ok (S fuel) m (VRef lw) h =
   Ok (VRef (List.length h)) (h ++ [plain [(where_key m k, v)]])%list) /\
  (forall c, truthy v = true -> get_prop_in h v "constructor" = inr c ->
   c = VNull \/ c = VUndef ->
   buildWhere ok (S fuel) m (VRef lw) h = Throw TypeError (h ++ [plain []])%list).
Proof.
  intros Hw Hk. split; [|split].
  - intros ->. cbn. js_run. unfold buildWhere_entry. js_run. reflexivity.
  - intros Hnull Hctor.
    assert (Hv : js_seq v VNull = false) by (by apply js_seq_false).
    destruct (truthy v) eqn:Ht.
    + destruct (Hctor eq_refl) as (n & Hn & HnO).
      unfold ctor_name in Hn.
      destruct (get_prop_in h v "constructor") as [|c] eqn:Ec; [discriminate|].
      destruct (get_prop_in h c "name") as [|n'] eqn:En; [discriminate|].
      injection Hn as ->.
      assert (HO : js_seq n (VStr "Object") = false) by (by apply js_seq_false).
      clear Hctor.
      cbn. js_run. unfold buildWhere_entry. js_run. reflexivity.
    + clear Hctor. cbn. js_run. unfold buildWhere_entry. js_run. reflexivity.
  - intros c Ht Hc Hcn.
    pose proof (get_prop_ext h [plain []] v "constructor" c Hc) as Hc'.
    cbn. js_run. unfold buildWhere_entry. js_run.
    destruct Hcn as [-> | ->]; reflexivity.
Qed.

Lemma buildWhere_condition_literal_witness :
  ctor_name date_heap (VRef 0) = Some (VStr "Date") /\
  buildWhere any_regexp 1 Widget (VRef 1) date_heap
  = Ok (VRef 2) (date_heap ++ [plain [("when", VRef 0)]])%list /\
  buildWhere any_regexp 1 Widget (VRef 1) null_ctor_heap
  = Throw TypeError (null_ctor_heap ++ [plain []])%list.
Proof.
  split; [reflexivity|]. split;
    [|exact (proj2 (proj2 (buildWhere_condition_literal any_regexp 0 Widget null_ctor_heap 1
                             (Some "Object") "x" (VRef 0) eq_refl eq_refl))
               VNull eq_refl eq_refl (or_introl eq_refl))].
  refine (proj1 (proj2 (buildWhere_condition_literal any_regexp 0 Widget date_heap 1 (Some "Object")
                   "when" (VRef 0) eq_refl eq_refl)) _ _).
  - discriminate.
  - intros _. exists (VStr "Date"). split; [reflexivity|discriminate].
Defined.

(** ** Frame reasoning: what a computation may write *)

Section Frame.

(** The heap at the start of the computation under study. *)
Variable h0 : heap.

Definition heap_ext (h : heap) : Prop := exists t, h = (h0 ++ t)%list.

(** A value the computation may write through: not an old object. *)
Definition writable (v : val) : Prop :=
  match v with VRef l => List.length h0 <= l | _ => True end%nat.

Definition triple {A} (P : heap -> Prop) (c : M heap A) (Q : A -> heap -> Prop) : Prop :=
  forall h, heap_ext h -> P h ->
  match c h with
  | Ok a h' => heap_ext h' /\ Q a h'
  | Throw _ h' => heap_ext h'
  | NoFuel => True
  end.

Lemma triple_bind {A B} (P : heap -> Prop) (Q : A -> heap -> Prop) (R : B -> heap -> Prop)
    (c : M heap A) (k : A -> M heap B) :
  triple P c Q -> (forall a, triple (Q a) (k a) R) -> triple P (bind c k) R.
Proof.
  intros Hc Hk h He HP. unfold bind. specialize (Hc h He HP).
  destruct (c h) as [a h'|e h'|]; [|done|done].
  destruct Hc as [He' HQ]. exact (Hk a h' He' HQ).
Qed.

Lemma triple_weaken {A} (P P' : heap -> Prop) (Q Q' : A -> heap -> Prop) (c : M heap A) :
  triple P' c Q' -> (forall h, P h -> P' h) -> (forall a h, Q' a h -> Q a h) -> triple P c Q.
Proof.
  intros Hc HP HQ h He Hp. specialize (Hc h He (HP h Hp)).
  destruct (c h); naive_solver.
Qed.

Lemma triple_pure {A} (F : Prop) (c : M heap A) (Q : A -> heap -> Prop) :
  (F -> triple (fun _ => True) c Q) -> triple (fun _ => F) c Q.
Proof. intros Hc h He HF. exact (Hc HF h He I). Qed.

Lemma triple_ret {A} (P : heap -> Prop) (a : A) : triple P (ret a) (fun _ _ => True).
Proof. intros h He _. done. Qed.

Lemma triple_ret_with {A} (P : heap -> Prop) (Q : A -> heap -> Prop) (a : A) :
  (forall h, P h -> Q a h) -> triple P (ret a) Q.
Proof. intros HQ h He HP. split; [done|by apply HQ]. Qed.

Lemma triple_throw {A} (P : heap -> Prop) (e : exn) (Q : A -> heap -> Prop) : triple P (throw e) Q.
Proof. intros h He _. done. Qed.

Lemma triple_get (P : heap -> Prop) (v : val) (k : string) :
  triple P (get_prop v k) (fun x h => P h /\ get_prop_in h v k = inr x).
Proof.
  intros h He HP. unfold get_prop. destruct (get_prop_in h v k) eqn:E; done.
Qed.

Lemma triple_alloc (P : heap -> Prop) (o : obj) :
  triple P (alloc o) (fun v _ => writable v).
Proof.
  intros h [t ->] _. unfold alloc. split.
  - exists (t ++ [o])%list. by rewrite app_assoc.
  - cbn. rewrite length_app. lia.
Qed.

Lemma triple_alloc_ref (P : heap -> Prop) (o : obj) :
  triple P (alloc o) (fun v _ => exists l, v = VRef l /\ List.length h0 <= l)%nat.
Proof.
  intros h [t ->] _. unfold alloc. split.
  - exists (t ++ [o])%list. by rewrite app_assoc.
  - eexists; split; [done|]. rewrite length_app. lia.
Qed.

Lemma assoc_get_set (props : list (string * val)) (k : string) (x : val) :
  assoc_get (assoc_set props k x) k = Some x.
Proof.
  induction props as [|[k' v'] r IH]; cbn.
  - by rewrite String.eqb_refl.
  - destruct (String.eqb k k') eqn:E; cbn.
    + by rewrite String.eqb_refl.
    + by rewrite E.
Qed.

Lemma heap_ext_insert (h : heap) (l : loc) (o : obj) :
  heap_ext h -> (List.length h0 <= l)%nat -> heap_ext (<[l := o]> h).
Proof.
  intros [t ->] Hl. exists (<[(l - List.length h0)%nat := o]> t).
  by apply insert_app_r_alt.
Qed.

Lemma triple_set (P : heap -> Prop) (v : val) (k : string) (x : val) :
  writable v ->
  triple P (set_prop v k x)
    (fun _ h => match v with VRef _ => get_prop_in h v k = inr x | _ => True end).
Proof.
  intros Hw h He _. unfold set_prop.
  destruct v as [| | | | | |l]; try done.
  destruct (h !! l) as [[pc props| | |]|] eqn:E; try done.
  split; [by apply heap_ext_insert|].
  cbn. rewrite list_lookup_insert_eq by (eapply lookup_lt_Some; eauto).
  by rewrite assoc_get_set.
Qed.

Lemma triple_delete (P : heap -> Prop) (v : val) (k : string) :
  writable v -> triple P (delete_prop v k) (fun _ _ => True).
Proof.
  intros Hw h He _. unfold delete_prop.
  destruct v as [| | | | | |l]; try done.
  destruct (h !! l) as [[pc props| | |]|] eqn:E; try done.
  split; [by apply heap_ext_insert|done].
Qed.

Lemma triple_own_keys (P : heap -> Prop) (v : val) :
  triple P (own_keys v) (fun _ _ => True).
Proof.
  intros h He _. unfold own_keys.
  destruct v as [| | | | | |l]; try done.
  destruct (h !! l) as [[]|]; done.
Qed.

Lemma triple_is_array (P : heap -> Prop) (v : val) :
  triple P (is_array v) (fun _ _ => True).
Proof.
  intros h He _. unfold is_array.
  destruct v as [| | | | | |l]; try done.
  destruct (h !! l) as [[]|]; done.
Qed.

Lemma triple_mapM {A B} (f : A -> M heap B) (l : list A) :
  (forall x, triple (fun _ => True) (f x) (fun _ _ => True)) ->
  triple (fun _ => True) (mapM f l) (fun _ _ => True).
Proof.
  intros Hf. induction l as [|x r IH]; cbn.
  - apply triple_ret.
  - eapply triple_bind; [apply Hf|]. intros y.
    eapply triple_bind; [apply IH|]. intros ys. apply triple_ret.
Qed.

Lemma triple_iterM {A} (f : A -> M heap unit) (l : list A) :
  (forall x, triple (fun _ => True) (f x) (fun _ _ => True)) ->
  triple (fun _ => True) (iterM f l) (fun _ _ => True).
Proof.
  intros Hf. induction l as [|x r IH]; cbn.
  - apply triple_ret.
  - eapply triple_bind; [apply Hf|]. intros u. apply IH.
Qed.

Lemma triple_array_map (P : heap -> Prop) (f : val -> M heap val) (v : val) :
  (forall x, triple (fun _ => True) (f x) (fun _ _ => True)) ->
  triple P (array_map f v) (fun _ _ => True).
Proof.
  intros Hf h He HP. unfold array_map.
  assert (Hmap : forall (k : val -> M heap val),
             (forall a, triple (fun h => P h /\ get_prop_in h v "map" = inr a) (k a) (fun _ _ => True)) ->
             match bind (get_prop v "map") k h with
             | Ok _ h' => heap_ext h' /\ True
             | Throw _ h' => heap_ext h'
             | NoFuel => True
             end).
  { intros k Hk. exact (triple_bind P _ _ _ k (triple_get P v "map") (fun a => Hk a) h He HP). }
  destruct v as [| |b|n|s|fn|l]; cbv beta iota;
    try (apply Hmap; intros a; apply triple_throw).
  destruct (h !! l) as [[| es | |]|] eqn:E;
    try (apply Hmap; intros [| | | | | |]; apply triple_throw).
  refine (triple_bind _ _ (fun _ _ => True) _ _ _ _ h He I).
  - by apply triple_mapM.
  - intros ys. apply (triple_weaken _ (fun _ => True) _ (fun v _ => writable v));
      [apply triple_alloc | intros; exact I | intros; exact I].
Qed.

Lemma triple_pre_true {A} (P : heap -> Prop) (c : M heap A) (Q : A -> heap -> Prop) :
  triple (fun _ => True) c Q -> triple P c Q.
Proof. intros Hc h He _. exact (Hc h He I). Qed.

Lemma triple_post_true {A} (P : heap -> Prop) (c : M heap A) (Q : A -> heap -> Prop) :
  triple P c Q -> triple P c (fun _ _ => True).
Proof. intros Hc. eapply triple_weaken; [exact Hc|done|done]. Qed.

Lemma triple_set_by (P : heap -> Prop) (v : val) (k : string) (x : val) :
  (forall h, P h -> writable v) -> triple P (set_prop v k x) (fun _ _ => True).
Proof.
  intros Hw h He HP.
  pose proof (triple_set P v k x (Hw h HP) h He HP) as H.
  destruct (set_prop v k x h); naive_solver.
Qed.

Lemma triple_new_regexp (P : heap -> Prop) (ok : val -> val -> bool) (pat flags : val) :
  triple P (new_regexp ok pat flags) (fun _ _ => True).
Proof.
  unfold new_regexp. destruct (ok pat flags).
  - apply triple_post_true with (Q := fun v _ => writable v). apply triple_alloc.
  - apply triple_throw.
Qed.

End Frame.

Ltac triple_prim :=
  first [ apply triple_get | apply triple_own_keys | apply triple_is_array
        | apply triple_new_regexp
        | apply triple_alloc
        | (apply triple_array_map; assumption)
        | (apply triple_array_map; intros; apply triple_ret) ].

Ltac triple_step :=
  first
    [ apply triple_ret
    | apply triple_throw
    | match goal with
      | |- triple _ (fun _ => True) _ _ => fail 1
      | |- triple _ (fun _ => ?F) _ _ => apply triple_pure; intros
      end
    | triple_prim
    | eapply triple_bind; [ triple_prim | intros; cbv beta ]
    | eapply triple_bind; [ apply triple_set; assumption | intros ]
    | (apply triple_set_by; intros; assumption)
    | (apply triple_set_by; intros ? [Ha Hb]; rewrite Ha in Hb; injection Hb as <-; assumption)
    | (apply triple_delete; assumption)
    | match goal with
      | |- triple _ _ (if ?b then _ else _) _ => destruct b
      | |- triple _ _ (match ?x with _ => _ end) _ => destruct x
      end
    | progress cbv beta iota zeta
    | (eapply triple_bind with (Q := fun _ _ => True);
         [solve [repeat triple_step] | intros; apply triple_pre_true]) ].

Lemma buildWhere_entry_frame (h0 : heap) (ok : val -> val -> bool) (rec : val -> M heap val)
    (m : model) (q : loc) (where_ : val) (k : string) :
  (forall x, triple h0 (fun _ => True) (rec x) (fun _ _ => True)) ->
  (List.length h0 <= q)%nat ->
  triple h0 (fun _ => True) (buildWhere_entry ok rec m (VRef q) where_ k) (fun _ _ => True).
Proof.
  intros Hrec Hq. unfold buildWhere_entry.
  eapply triple_bind; [apply triple_get|]. intros cond. apply triple_pre_true.
  destruct (logical_key (where_key m k)).
  - repeat triple_step.
  - eapply triple_bind with (Q := fun _ _ => True).
    { destruct (truthy cond); repeat triple_step. }
    intros [[spec options] c]. apply triple_pre_true.
    repeat triple_step.
Qed.

Lemma buildWhere_frame (h0 : heap) (ok : val -> val -> bool) (fuel : nat) (m : model) (where_ : val) :
  triple h0 (fun _ => True) (buildWhere ok fuel m where_)
    (fun v _ => exists l, v = VRef l /\ List.length h0 <= l)%nat.
Proof.
  revert where_. induction fuel as [|f IH]; intros where_; [by intros h _ _|].
  cbn [buildWhere].
  eapply triple_bind; [apply triple_alloc_ref|]. intros query. cbv beta.
  apply triple_pure. intros (q & -> & Hq).
  destruct (js_seq where_ VNull || negb (typeof_object where_))%bool.
  - apply triple_ret_with. eauto.
  - eapply triple_bind; [apply triple_own_keys|]. intros ks. apply triple_pre_true.
    eapply triple_bind; [apply triple_iterM|].
    + intros k. apply buildWhere_entry_frame; [|exact Hq].
      intros x. eapply triple_post_true. apply IH.
    + intros u. apply triple_ret_with. eauto.
Qed.

(** C5: [buildWhere] never writes to an object that existed before the call
    (in particular not to the input filter [where_] nor to anything
    reachable from it): whatever the outcome, the heap afterwards is the
    heap before with fresh objects appended, and the query it returns is
    one of those fresh objects. *)
Theorem buildWhere_preserves_heap (ok : val -> val -> bool) (fuel : nat) (m : model)
    (where_ : val) (h : heap) :
  match buildWhere ok fuel m where_ h with
  | Ok v h' => (exists t, h' = (h ++ t)%list) /\
               exists l, v = VRef l /\ (List.length h <= l)%nat
  | Throw _ h' => exists t, h' = (h ++ t)%list
  | NoFuel => True
  end.
Proof.
  pose proof (buildWhere_frame h ok fuel m where_ h) as H.
  assert (He : heap_ext h h) by (exists []; by rewrite app_nil_r).
  specialize (H He I).
  destruct (buildWhere ok fuel m where_ h) as [v h'|e h'|]; [|exact H|done].
  exact H.
Qed.

(** C9: a [where] that is [null] or not of type ['object'] is translated to
    a fresh empty query [{}], without raising and without touching the
    heap otherwise. *)
Theorem buildWhere_non_object (ok : val -> val -> bool) (fuel : nat) (m : model)
    (where_ : val) (h : heap) :
  where_ = VNull \/ typeof_object where_ = false ->
  buildWhere ok (S fuel) m where_ h = Ok (VRef (List.length h)) (h ++ [plain []])%list.
Proof.
  intros Hw. cbn [buildWhere]. unfold bind, alloc.
  replace (js_seq where_ VNull || negb (typeof_object where_))%bool with true; [done|].
  destruct Hw as [-> | ->]; [done|]. by rewrite orb_true_r.
Qed.

Lemma buildWhere_non_object_witness :
  (VStr "abc" = VNull \/ typeof_object (VStr "abc") = false) /\
  buildWhere any_regexp 1 Widget (VStr "abc") [] = Ok (VRef 0) [plain []].
Proof.
  split; [right; reflexivity|].
  exact (buildWhere_non_object any_regexp 0 Widget (VStr "abc") [] (or_intror eq_refl)).
Defined.
(** ** Lemmas on the sort-order parsing *)















(** The last characters of [x ++ [a; b; c]], read backwards. *)
Lemma rev_app3 (x : list ascii) (a b c : ascii) : rev (x ++ [a; b; c])%list = c :: b :: a :: rev x.
Proof. by rewrite rev_app_distr. Qed.

Lemma rev_app4 (x : list ascii) (a b c d : ascii) :
  rev (x ++ [a; b; c; d])%list = d :: c :: b :: a :: rev x.
Proof. by rewrite rev_app_distr. Qed.

Lemma rev_app5 (x : list ascii) (a b c d e : ascii) :
  rev (x ++ [a; b; c; d; e])%list = e :: d :: c :: b :: a :: rev x.
Proof. by rewrite rev_app_distr. Qed.








(** ** Lemmas on [parseUpdateData] *)

Lemma assoc_set_absent (acc : list (string * val)) (k : string) (v : val) :
  assoc_get acc k = None -> assoc_set acc k v = (acc ++ [(k, v)])%list.
Proof.
  induction acc as [|[k' v'] r IH]; cbn; [done|].
  destruct (String.eqb k k'); [discriminate|]. intros H. by rewrite IH.
Qed.

Lemma assoc_get_app_none (acc r : list (string * val)) (k : string) :
  assoc_get acc k = None -> assoc_get (acc ++ r)%list k = assoc_get r k.
Proof.
  induction acc as [|[k' v'] a IH]; cbn; [done|].
  destruct (String.eqb k k'); [discriminate|exact IH].
Qed.

Lemma get_prop_plain_ext (h t : heap) (l : loc) (pc : option string)
    (props : list (string * val)) (k : string) :
  h !! l = Some (OPlain pc props) -> String.eqb k "constructor" = false ->
  get_prop_in (h ++ t)%list (VRef l) k = inr (default VUndef (assoc_get props k)).
Proof.
  intros Hl Hk. cbn [get_prop_in]. rewrite (lookup_old h t l _ Hl).
  destruct (assoc_get props k); [done|]. by rewrite Hk.
Qed.

Lemma parse_operators_plain (h : heap) (l : loc) (pc : option string)
    (props acc : list (string * val)) (ops : list string) (n : nat) :
  h !! l = Some (OPlain pc props) ->
  NoDup ops ->
  Forall (fun op => String.eqb op "constructor" = false) ops ->
  Forall (fun op => assoc_get acc op = None) ops ->
  parse_operators (VRef (List.length h)) (VRef l) ops n (h ++ [plain acc])%list =
  Ok (n + List.length (truthy_operators props ops))%nat
     (h ++ [plain (acc ++ truthy_operators props ops)])%list.
Proof.
  intros Hl. revert acc n.
  induction ops as [|op rest IH]; intros acc n Hnd Hc Ha.
  - cbn. by rewrite Nat.add_0_r, app_nil_r.
  - inversion Hnd as [|? ? Hnin Hnd']; subst.
    inversion Hc as [|? ? Hc0 Hc']; subst.
    inversion Ha as [|? ? Ha0 Ha']; subst.
    cbn [parse_operators truthy_operators flat_map]. unfold bind, get_prop.
    rewrite (get_prop_plain_ext h _ l pc props op Hl Hc0).
    destruct (assoc_get props op) as [v|] eqn:Ev; cbn [default from_option id].
    + destruct (truthy v) eqn:Tv; cbv beta iota.
      * rewrite (get_prop_plain_ext h _ l pc props op Hl Hc0), Ev. cbn [default from_option id].
        unfold set_prop. rewrite lookup_new0.
        cbn [plain]. rewrite (assoc_set_absent acc op v Ha0), insert_new0. unfold ret.
        cbv beta iota. change (OPlain (Some "Object") (acc ++ [(op, v)])) with (plain (acc ++ [(op, v)])).
        fold (truthy_operators props rest).
        rewrite (IH (acc ++ [(op, v)])%list (S n) Hnd' Hc').
        { cbn [List.length app]. rewrite <- app_assoc. f_equal. lia. }
        apply Forall_forall. intros op' Hop'.
        rewrite (assoc_get_app_none acc _ op') by (by apply (proj1 (Forall_forall _ _) Ha')).
        cbn. destruct (String.eqb op' op) eqn:E; [|done].
        apply String.eqb_eq in E. subst. contradiction.
      * cbn [ret app]. fold (truthy_operators props rest). by apply IH.
    + cbn [ret app]. fold (truthy_operators props rest). by apply IH.
Qed.

(** C6 (failing input): with the extended-operators flag on, the payload
    [{$inc: 0}] holds the allow-listed operator [$inc], yet it is not
    forwarded under its own key, against the comment "each accepted
    operator will take its place on parsedData if defined": the loop tests
    [data[op]] for truthiness, finds no operator, and wraps the whole
    payload as [{$set: {$inc: 0}}]. *)
Lemma parseUpdateData_falsy_operator :
  parseUpdateData (VBool true) (VRef 0) inc_zero_heap
  = Ok (VRef 1) (inc_zero_heap ++ [plain [("$set", VRef 0)]])%list.
Proof. vm_compute. reflexivity. Qed.

(** C6 (what the code does): unless the flag is exactly [true], the result is
    [{$set: data}] (for every [data]); when it is [true] and [data] is a plain
    object, the result holds the allow-listed operators that [data] has
    with a truthy value, each under its own key, in the order of the
    allow-list, and is [{$set: data}] when there is none. An operator
    present with a falsy value is dropped, where the comment of the source
    says a defined one is forwarded. *)
Theorem parseUpdateData_result :
  (forall (flag data : val) (h : heap), flag <> VBool true ->
   parseUpdateData flag data h =
   Ok (VRef (List.length h)) (h ++ [plain [("$set", data)]])%list) /\
  (forall (h : heap) (l : loc) (pc : option string) (props : list (string * val)),
   h !! l = Some (OPlain pc props) ->
   parseUpdateData (VBool true) (VRef l) h =
   Ok (VRef (List.length h))
      (h ++ [plain (match truthy_operators props acceptedOperators with
                    | [] => [("$set", VRef l)]
                    | ops => ops
                    end)])%list).
Proof.
  split.
  - intros flag data h Hf. unfold parseUpdateData, bind, alloc.
    rewrite (js_seq_false _ _ Hf). unfold set_prop. rewrite lookup_new0.
    cbn [plain assoc_set]. rewrite insert_new0. reflexivity.
  - intros h l pc props Hl. unfold parseUpdateData, bind, alloc. cbn [js_seq Bool.eqb].
    change (OPlain (Some "Object") []) with (plain []).
    rewrite (parse_operators_plain h l pc props [] acceptedOperators 0 Hl).
    2: { apply (bool_decide_unpack _). vm_compute. reflexivity. }
    2: { repeat constructor. }
    2: { repeat constructor. }
    cbn [app Nat.add].
    destruct (truthy_operators props acceptedOperators) as [|op ops]; cbn [List.length Nat.eqb].
    + unfold set_prop. rewrite lookup_new0. cbn [plain assoc_set]. rewrite insert_new0. reflexivity.
    + reflexivity.
Qed.

Lemma parseUpdateData_result_witness :
  parseUpdateData (VStr "true") (VRef 0) inc_zero_heap
  = Ok (VRef 1) (inc_zero_heap ++ [plain [("$set", VRef 0)]])%list /\
  parseUpdateData (VBool true) (VRef 0) [plain [("name", VStr "b"); ("$inc", VRef 0)]]
  = Ok (VRef 1) [plain [("name", VStr "b"); ("$inc", VRef 0)]; plain [("$inc", VRef 0)]].
Proof.
  destruct parseUpdateData_result as [Hoff Hon]. split.
  - apply Hoff. discriminate.
  - exact (Hon [plain [("name", VStr "b"); ("$inc", VRef 0)]] 0 (Some "Object")
             [("name", VStr "b"); ("$inc", VRef 0)] eq_refl).
Defined.

(** ** Claims about [updateOrCreate] *)

(** C1: [updateOrCreate] refers to [uri], which nothing in its scope
    chain declares (it computes [id] instead; the defect behind C7 too):
    for every input it either
    throws before reaching the store or does not return; it never sends a
    request to the store, never calls its callback and leaves the
    documents as they were. *)
Theorem updateOrCreate_no_completion (D : Type) (store : string -> list val -> M (st D) (val * val))
    (getIdValue : model -> val -> M heap val) (setIdValue : model -> val -> val -> M heap unit)
    (flag : val) (globals : list (string * val)) (connector : val)
    (m : model) (data options callback : val) (s : st D) :
  assoc_get globals "uri" = None ->
  match updateOrCreate D store getIdValue setIdValue flag globals connector m data options callback s with
  | Ok _ _ => False
  | Throw _ s' => st_log s' = st_log s /\ st_docs s' = st_docs s
  | NoFuel => True
  end.
Proof.
  intros Hg. unfold updateOrCreate, bind, lift.
  destruct (getIdValue m data (st_heap s)) as [id h1|e h1|]; [|done|done].
  cbn -[to_key delete_prop parseUpdateData lookup_var updateOrCreate_env].
  destruct (to_key (m_idName m) h1) as [k h2|e h2|]; [|done|done].
  cbn -[delete_prop parseUpdateData lookup_var updateOrCreate_env].
  destruct (delete_prop data k h2) as [u h3|e h3|]; [|done|done].
  cbn -[parseUpdateData lookup_var updateOrCreate_env].
  destruct (parseUpdateData flag data h3) as [d h4|e h4|]; [|done|done].
  cbn -[updateOrCreate_env]. unfold lookup_var, updateOrCreate_env, module_scope.
  cbn [app assoc_get String.eqb Ascii.eqb Bool.eqb]. rewrite Hg. done.
Qed.

Lemma updateOrCreate_no_completion_witness :
  assoc_get [] "uri" = None /\
  match updateOrCreate unit null_store base_getIdValue base_setIdValue (VBool false) [] VUndef
          Widget (VRef 0) VUndef (VFun "cb") (mk_st widget_data_heap tt []) with
  | Ok _ _ => False
  | Throw _ s' => st_log s' = [] /\ st_docs s' = tt
  | NoFuel => True
  end.
Proof.
  split; [reflexivity|].
  exact (updateOrCreate_no_completion unit null_store base_getIdValue base_setIdValue (VBool false)
           [] VUndef Widget (VRef 0) VUndef (VFun "cb") (mk_st widget_data_heap tt []) eq_refl).
Defined.

(** C7: for a payload that the steps before the store request accept,
    [updateOrCreate] throws a ReferenceError on [uri]: no lookup, no
    insert, no merge and no report of found or not found takes place. *)
Theorem updateOrCreate_reference_error (D : Type) (store : string -> list val -> M (st D) (val * val))
    (getIdValue : model -> val -> M heap val) (setIdValue : model -> val -> val -> M heap unit)
    (flag : val) (globals : list (string * val)) (connector : val)
    (m : model) (data options callback : val) (s : st D)
    (id d : val) (k : string) (h1 h2 h3 : heap) :
  assoc_get globals "uri" = None ->
  getIdValue m data (st_heap s) = Ok id h1 ->
  to_key (m_idName m) h1 = Ok k h1 ->
  delete_prop data k h1 = Ok tt h2 ->
  parseUpdateData flag data h2 = Ok d h3 ->
  updateOrCreate D store getIdValue setIdValue flag globals connector m data options callback s
  = Throw ReferenceError (mk_st h3 (st_docs s) (st_log s)).
Proof.
  intros Hg Hid Hk Hdel Hp. unfold updateOrCreate, bind, lift.
  rewrite Hid. cbn -[to_key delete_prop parseUpdateData lookup_var updateOrCreate_env].
  rewrite Hk. cbn -[delete_prop parseUpdateData lookup_var updateOrCreate_env].
  rewrite Hdel. cbn -[parseUpdateData lookup_var updateOrCreate_env].
  rewrite Hp. cbn -[updateOrCreate_env]. unfold lookup_var, updateOrCreate_env, module_scope.
  cbn [app assoc_get String.eqb Ascii.eqb Bool.eqb]. rewrite Hg. reflexivity.
Qed.

Lemma updateOrCreate_reference_error_witness :
  updateOrCreate unit null_store base_getIdValue base_setIdValue (VBool false) [] VUndef
    Widget (VRef 0) VUndef (VFun "cb") (mk_st widget_data_heap tt [])
  = Throw ReferenceError
      (mk_st [plain [("name", VStr "b")]; plain [("$set", VRef 0)]] tt []).
Proof.
  exact (updateOrCreate_reference_error unit null_store base_getIdValue base_setIdValue (VBool false)
           [] VUndef Widget (VRef 0) VUndef (VFun "cb") (mk_st widget_data_heap tt [])
           (VNum 7) (VRef 1) "id" widget_data_heap [plain [("name", VStr "b")]]
           [plain [("name", VStr "b")]; plain [("$set", VRef 0)]]
           eq_refl eq_refl eq_refl eq_refl eq_refl).
Defined.

(** ** Claim about [updateAll] *)

(** C2: [updateAll] sends the store one [update] request whose options
    are [{multi: true, upsert: false}]; for a store that, on such a request
    whose query matches no document, leaves its documents as they are and
    answers [(null, {result: {n: 0, ...}})], the callback is called exactly
    once, with [null] and [{count: 0}], and no document is created. *)
Theorem updateAll_no_match (D : Type) (store : string -> list val -> M (st D) (val * val))
    (flag : val) (ok : val -> val -> bool) (fuel : nat)
    (count_matching : heap -> val -> D -> nat)
    (m : model) (where_ data options : val) (f : string) (s : st D)
    (q d : val) (k : string) (h1 h2 h3 : heap) :
  (forall s0 q0 d0 o0,
     get_prop_in (st_heap s0) o0 "upsert" = inr (VBool false) ->
     count_matching (st_heap s0) q0 (st_docs s0) = 0%nat ->
     exists info r h',
       store "update" [q0; d0; o0] s0 = Ok (VNull, info) (mk_st h' (st_docs s0) (st_log s0)) /\
       get_prop_in h' info "result" = inr r /\ truthy r = true /\
       get_prop_in h' r "n" = inr (VNum 0)) ->
  buildWhere ok fuel m where_ (st_heap s) = Ok q h1 ->
  to_key (m_idName m) h1 = Ok k h1 ->
  delete_prop data k h1 = Ok tt h2 ->
  parseUpdateData flag data h2 = Ok d h3 ->
  count_matching (h3 ++ [plain [("multi", VBool true); ("upsert", VBool false)]])%list
                 q (st_docs s) = 0%nat ->
  exists h',
    updateAll D store flag ok fuel m where_ data options (VFun f) s =
    Ok tt (mk_st (h' ++ [plain [("count", VNum 0)]])%list (st_docs s)
             (st_log s ++ [EExec "update" [q; d; VRef (List.length h3)];
                           ECall (VFun f) [VNull; VRef (List.length h')]])%list).
Proof.
  intros Hupd Hw Hk Hdel Hp Hnone.
  set (h4 := (h3 ++ [plain [("multi", VBool true); ("upsert", VBool false)]])%list).
  set (s0 := mk_st h4 (st_docs s) (st_log s ++ [EExec "update" [q; d; VRef (List.length h3)]])%list).
  destruct (Hupd s0 q d (VRef (List.length h3))) as (info & r & h' & Hst & Hr & Htr & Hn).
  { cbn. unfold h4. rewrite lookup_new0. reflexivity. }
  { exact Hnone. }
  exists h'. unfold updateAll, execute, emit, call_opt, call, bind, lift.
  rewrite Hw. cbn -[to_key delete_prop parseUpdateData buildWhere].
  rewrite Hk. cbn -[delete_prop parseUpdateData].
  rewrite Hdel. cbn -[parseUpdateData].
  rewrite Hp. cbn.
  change (store "update" [q; d; VRef (List.length h3)] s0 = Ok (VNull, info) (mk_st h' (st_docs s0) (st_log s0))) in Hst.
  unfold s0, h4 in Hst. rewrite Hst. cbn -[get_prop_in].
  unfold get_prop. rewrite Hr. cbn -[get_prop_in]. rewrite Htr. cbn -[get_prop_in].
  rewrite Hr. cbn -[get_prop_in]. rewrite Hn. cbn.
  unfold emit; cbn. rewrite <- app_assoc. reflexivity.
Qed.

Lemma updateAll_no_match_witness :
  exists h',
    updateAll unit (zero_update_store unit) (VBool false) any_regexp 3 Widget (VRef 0) (VRef 1)
      VUndef (VFun "cb") (mk_st update_heap tt []) =
    Ok tt (mk_st (h' ++ [plain [("count", VNum 0)]])%list tt
             [EExec "update" [VRef 2; VRef 3; VRef 4];
              ECall (VFun "cb") [VNull; VRef (List.length h')]]).
Proof.
  refine (updateAll_no_match unit (zero_update_store unit) (VBool false) any_regexp 3
            (fun _ _ _ => 0%nat) Widget (VRef 0) (VRef 1) VUndef "cb" (mk_st update_heap tt [])
            (VRef 2) (VRef 3) "id"
            [plain [("name", VStr "x")]; plain [("id", VNum 7); ("name", VStr "y")];
             plain [("name", VStr "x")]]
            [plain [("name", VStr "x")]; plain [("name", VStr "y")]; plain [("name", VStr "x")]]
            [plain [("name", VStr "x")]; plain [("name", VStr "y")]; plain [("name", VStr "x")];
             plain [("$set", VRef 1)]]
            _ eq_refl eq_refl eq_refl eq_refl eq_refl).
  intros s0 q0 d0 o0 _ _.
  exists (VRef (List.length (st_heap s0) + 1)), (VRef (List.length (st_heap s0))),
    (st_heap s0 ++ [plain [("n", VNum 0)]; plain [("result", VRef (List.length (st_heap s0)))]])%list.
  split; [reflexivity|].
  split; [cbn; rewrite lookup_new; reflexivity|].
  split; [reflexivity|].
  cbn. rewrite lookup_new0. reflexivity.
Defined.

(** ** Claim about [updateAttributes] *)

(** C8: [updateAttributes] sends the store one [findAndModify] request
    for [{_uri: uri}] with options [{}], which do not ask for an upsert.
    For a store that, on such a request when no document is held at [uri],
    leaves its documents as they are and answers [(null, r)] with [r] or
    [r.value] falsy, and for a [setIdValue] that does nothing on a falsy
    object (as the base class's does), the callback is called exactly
    once, with the message [No <model> found for uri <uri>] and the falsy
    object, and the documents are unchanged. *)
Theorem updateAttributes_not_found (D : Type) (store : string -> list val -> M (st D) (val * val))
    (setIdValue : model -> val -> val -> M heap unit) (flag : val)
    (doc_at : D -> val -> bool)
    (m : model) (uri data options : val) (f : string) (s : st D)
    (d : val) (h1 : heap) (u : string) :
  (forall s0 q0 sort0 d0 o0 uri0,
     get_prop_in (st_heap s0) q0 "_uri" = inr uri0 ->
     get_prop_in (st_heap s0) o0 "upsert" = inr VUndef ->
     doc_at (st_docs s0) uri0 = false ->
     exists r o h',
       store "findAndModify" [q0; sort0; d0; o0] s0
       = Ok (VNull, r) (mk_st h' (st_docs s0) (st_log s0)) /\
       truthy o = false /\
       ((truthy r = false /\ o = r) \/ (truthy r = true /\ get_prop_in h' r "value" = inr o))) ->
  (forall o h, truthy o = false -> setIdValue m o uri h = Ok tt h) ->
  (forall h, js_to_string uri h = Ok u h) ->
  parseUpdateData flag data (st_heap s) = Ok d h1 ->
  doc_at (st_docs s) uri = false ->
  exists o h',
    truthy o = false /\
    updateAttributes D store setIdValue flag m uri data options (VFun f) s =
    Ok tt (mk_st h' (st_docs s)
             (st_log s ++ [EExec "findAndModify"
                             [VRef (List.length h1); VRef (List.length h1 + 2); d;
                              VRef (List.length h1 + 3)];
                           ECall (VFun f) [VStr ("No " ++ m_name m ++ " found for uri " ++ u); o]])%list).
Proof.
  intros Hst Hset Hu Hp Hdoc.
  unfold updateAttributes, execute, emit, call_opt, call, bind, lift.
  rewrite Hp. cbn -[parseUpdateData].
  repeat rewrite <- app_assoc. cbn [app]. rewrite !length_app. cbn [length].
  set (hq := (h1 ++ [plain [("_uri", uri)]; OArray [VStr "_uri"; VStr "asc"];
                    OArray [VRef (List.length h1 + 1)]; plain []])%list).
  set (s0 := mk_st hq (st_docs s)
               (st_log s ++ [EExec "findAndModify"
                               [VRef (List.length h1); VRef (List.length h1 + 2); d;
                                VRef (List.length h1 + 3)]])%list).
  destruct (Hst s0 (VRef (List.length h1)) (VRef (List.length h1 + 2)) d
              (VRef (List.length h1 + 3)) uri) as (r & o & h' & Hs & Ho & Hr).
  { cbn. unfold hq. rewrite lookup_new0. reflexivity. }
  { cbn. unfold hq. rewrite lookup_new. reflexivity. }
  { exact Hdoc. }
  exists o, h'. split; [exact Ho|]. rewrite Hs. cbn -[get_prop_in js_to_string].
  destruct Hr as [[Hr ->] | [Hr Hv]].
  - rewrite Hr. cbn -[js_to_string]. rewrite Hr. cbn -[js_to_string]. rewrite Hu. cbn.
    rewrite Hset by exact Hr. cbn. unfold emit. cbn. rewrite <- app_assoc. reflexivity.
  - rewrite Hr. cbn -[get_prop_in js_to_string]. unfold get_prop. rewrite Hv.
    cbn -[js_to_string]. rewrite Ho. cbn -[js_to_string]. rewrite Hu. cbn. rewrite Hset by exact Ho.
    cbn. unfold emit. cbn. rewrite <- app_assoc. reflexivity.
Qed.

Lemma updateAttributes_not_found_witness :
  exists o h',
    truthy o = false /\
    updateAttributes (list val) uri_store base_setIdValue (VBool false) Widget
      (VStr "/widgets/1.json") (VRef 0) VUndef (VFun "cb") (mk_st attrs_heap [VStr "/widgets/2.json"] [])
    = Ok tt (mk_st h' [VStr "/widgets/2.json"]
               [EExec "findAndModify" [VRef 2; VRef 4; VRef 1; VRef 5];
                ECall (VFun "cb") [VStr ("No " ++ m_name Widget ++ " found for uri /widgets/1.json"); o]]).
Proof.
  refine (updateAttributes_not_found (list val) uri_store base_setIdValue (VBool false) uri_doc_at
            Widget (VStr "/widgets/1.json") (VRef 0) VUndef "cb"
            (mk_st attrs_heap [VStr "/widgets/2.json"] [])
            (VRef 1) [plain [("name", VStr "b")]; plain [("$set", VRef 0)]] "/widgets/1.json"
            _ _ (fun h => eq_refl) eq_refl eq_refl).
  - intros s0 q0 sort0 d0 o0 uri0 Hq _ Hdoc.
    exists (VRef (List.length (st_heap s0))), VNull,
      (st_heap s0 ++ [plain [("value", VNull)]])%list.
    split; [unfold uri_store; rewrite Hq, Hdoc; reflexivity|].
    split; [reflexivity|].
    right. split; [reflexivity|]. cbn. rewrite lookup_new0. reflexivity.
  - intros o h Ho. unfold base_setIdValue. rewrite Ho. reflexivity.
Defined.

(** ** Further properties of the connector *)

Lemma assoc_get_set_ne (props : list (string * val)) (k k' : string) (x : val) :
  k <> k' -> assoc_get (assoc_set props k x) k' = assoc_get props k'.
Proof.
  intros Hne. induction props as [|[k0 v0] r IH]; cbn.
  - destruct (String.eqb k' k) eqn:E; [apply String.eqb_eq in E; congruence | done].
  - destruct (String.eqb k k0) eqn:E; cbn.
    + apply String.eqb_eq in E. subst k0.
      destruct (String.eqb k' k) eqn:E'; [apply String.eqb_eq in E'; congruence | done].
    + destruct (String.eqb k' k0); [done | exact IH].
Qed.

Lemma get_plain (h : heap) (l : loc) (pc : option string) (props : list (string * val))
    (k : string) :
  h !! l = Some (OPlain pc props) -> String.eqb k "constructor" = false ->
  get_prop (VRef l) k h = Ok (pget props k) h.
Proof.
  intros H Hk. unfold get_prop, get_prop_in, pget. rewrite H.
  destruct (assoc_get props k); [done|]. by rewrite Hk.
Qed.

Lemma set_plain (h : heap) (l : loc) (pc : option string) (props : list (string * val))
    (k : string) (x : val) :
  h !! l = Some (OPlain pc props) ->
  set_prop (VRef l) k x h = Ok tt (<[l := OPlain pc (assoc_set props k x)]> h).
Proof. intros H. unfold set_prop. by rewrite H. Qed.

Lemma lookup_insert_same (h : heap) (l : loc) (o o' : obj) :
  h !! l = Some o -> <[l := o']> h !! l = Some o'.
Proof. intros H. apply list_lookup_insert_eq. eapply lookup_lt_Some. exact H. Qed.

(** One run of [generateConnectionObject] on an ordinary object: the
    defaults are written back to [options], and the connection object is
    read from [options] afterwards. *)
Lemma generateConnectionObject_eval (h : heap) (l : loc) (pc : option string)
    (props : list (string * val)) :
  h !! l = Some (OPlain pc props) ->
  let hn := if truthy (pget props "hostname") then pget props "hostname"
            else if truthy (pget props "host") then pget props "host" else VStr "127.0.0.1" in
  let pt := if truthy (pget props "port") then pget props "port" else VNum 8000 in
  let db := if truthy (pget props "database") then pget props "database"
            else if truthy (pget props "db") then pget props "db" else VStr "documents" in
  let au := if truthy (pget props "authType") then pget props "authType" else VStr "DIGEST" in
  let props' := assoc_set (assoc_set (assoc_set (assoc_set props "hostname" hn) "port" pt)
                                     "database" db) "authType" au in
  generateConnectionObject (VRef l) h
  = Ok (VRef (List.length h))
       (<[l := OPlain pc props']> h
        ++ [plain [("host", hn); ("port", pt); ("user", pget props "username");
                   ("password", pget props "password"); ("authType", au)]])%list.
Proof.
  intros H hn pt db au props'.
  assert (Hh : forall v : val, truthy v = true \/ truthy v = false)
    by (intros v; destruct (truthy v); auto).
  unfold generateConnectionObject, bind, js_or.
  rewrite (get_plain h l pc props "hostname" H eq_refl). cbv beta iota.
  assert (E1 : (if truthy (pget props "hostname") then ret (pget props "hostname")
                else (fun h' => match get_prop (VRef l) "host" h' with
                                | Ok a s' => (if truthy a then ret a else ret (VStr "127.0.0.1")) s'
                                | Throw e s' => Throw e s'
                                | NoFuel => NoFuel
                                end)) h = Ok hn h).
  { unfold hn. destruct (truthy (pget props "hostname")); [done|].
    rewrite (get_plain h l pc props "host" H eq_refl). by destruct (truthy (pget props "host")). }
  rewrite E1. clear E1.
  rewrite (set_plain h l pc props "hostname" hn H).
  set (h1 := <[l := OPlain pc (assoc_set props "hostname" hn)]> h).
  assert (H1 : h1 !! l = Some (OPlain pc (assoc_set props "hostname" hn)))
    by (unfold h1; by eapply lookup_insert_same).
  rewrite (get_plain h1 l pc _ "port" H1 eq_refl).
  unfold pget at 1 2. rewrite assoc_get_set_ne by done. fold (pget props "port").
  assert (E2 : (if truthy (pget props "port") then ret (pget props "port")
                else ret (VNum 8000)) h1 = Ok pt h1)
    by (unfold pt; by destruct (truthy (pget props "port"))).
  rewrite E2. clear E2.
  rewrite (set_plain h1 l pc _ "port" pt H1).
  set (h2 := <[l := OPlain pc (assoc_set (assoc_set props "hostname" hn) "port" pt)]> h1).
  assert (H2 : h2 !! l = Some (OPlain pc (assoc_set (assoc_set props "hostname" hn) "port" pt)))
    by (unfold h2; by eapply lookup_insert_same).
  rewrite (get_plain h2 l pc _ "database" H2 eq_refl).
  unfold pget at 1 2. rewrite !assoc_get_set_ne by done. fold (pget props "database").
  assert (E3 : (if truthy (pget props "database") then ret (pget props "database")
                else (fun h' => match get_prop (VRef l) "db" h' with
                                | Ok a s' => (if truthy a then ret a else ret (VStr "documents")) s'
                                | Throw e s' => Throw e s'
                                | NoFuel => NoFuel
                                end)) h2 = Ok db h2).
  { unfold db. destruct (truthy (pget props "database")); [done|].
    rewrite (get_plain h2 l pc _ "db" H2 eq_refl).
    unfold pget at 1 2. rewrite !assoc_get_set_ne by done. fold (pget props "db").
    by destruct (truthy (pget props "db")). }
  rewrite E3. clear E3.
  rewrite (set_plain h2 l pc _ "database" db H2).
  set (p3 := assoc_set (assoc_set (assoc_set props "hostname" hn) "port" pt) "database" db).
  set (h3 := <[l := OPlain pc p3]> h2).
  assert (H3 : h3 !! l = Some (OPlain pc p3)) by (unfold h3; by eapply lookup_insert_same).
  rewrite (get_plain h3 l pc _ "authType" H3 eq_refl).
  assert (Ea : pget p3 "authType" = pget props "authType")
    by (unfold pget, p3; rewrite !assoc_get_set_ne by done; reflexivity).
  rewrite Ea.
  assert (E4 : (if truthy (pget props "authType") then ret (pget props "authType")
                else ret (VStr "DIGEST")) h3 = Ok au h3)
    by (unfold au; by destruct (truthy (pget props "authType"))).
  rewrite E4. clear E4.
  rewrite (set_plain h3 l pc _ "authType" au H3).
  change (assoc_set p3 "authType" au) with props'.
  set (h4 := <[l := OPlain pc props']> h3).
  assert (H4 : h4 !! l = Some (OPlain pc props')) by (unfold h4; by eapply lookup_insert_same).
  assert (Eu : pget props' "username" = pget props "username")
    by (unfold pget, props'; rewrite !assoc_get_set_ne by done; reflexivity).
  assert (Ep : pget props' "password" = pget props "password")
    by (unfold pget, props'; rewrite !assoc_get_set_ne by done; reflexivity).
  assert (En : pget props' "hostname" = hn)
    by (unfold pget, props'; rewrite !assoc_get_set_ne by done; by rewrite assoc_get_set).
  assert (Et : pget props' "port" = pt)
    by (unfold pget, props'; rewrite !assoc_get_set_ne by done; by rewrite assoc_get_set).
  assert (Eau : pget props' "authType" = au) by (unfold pget, props'; by rewrite assoc_get_set).
  rewrite (get_plain h4 l pc _ "username" H4 eq_refl). cbv beta iota.
  rewrite Eu.
  destruct (truthy (pget props "username")).
  all: cbn [ret]; try (rewrite (get_plain h4 l pc _ "user" H4 eq_refl); cbn beta iota).
  all: rewrite (get_plain h4 l pc _ "hostname" H4 eq_refl), (get_plain h4 l pc _ "port" H4 eq_refl),
         (get_plain h4 l pc _ "username" H4 eq_refl), (get_plain h4 l pc _ "password" H4 eq_refl),
         (get_plain h4 l pc _ "authType" H4 eq_refl).
  all: rewrite En, Et, Eu, Ep, Eau; unfold alloc, h4, h3, h2, h1; rewrite !length_insert;
       unfold props', p3; rewrite !list_insert_insert_eq; reflexivity.
Qed.

(** X1: [generateConnectionObject(options)] returns [{host, port, user,
    password, authType}] with [host] the first truthy of [options.hostname]
    and [options.host] (else ['127.0.0.1']), [port] [options.port] or
    [8000], [authType] [options.authType] or ['DIGEST'], [user]
    [options.username] and [password] [options.password]; it also writes
    the defaulted [hostname], [port], [database] ([options.database], then
    [options.db], else ['documents']) and [authType] back into [options]. *)
Theorem generateConnectionObject_fields (h : heap) (l : loc) (pc : option string)
    (props : list (string * val)) :
  h !! l = Some (OPlain pc props) ->
  let hn := if truthy (pget props "hostname") then pget props "hostname"
            else if truthy (pget props "host") then pget props "host" else VStr "127.0.0.1" in
  let pt := if truthy (pget props "port") then pget props "port" else VNum 8000 in
  let db := if truthy (pget props "database") then pget props "database"
            else if truthy (pget props "db") then pget props "db" else VStr "documents" in
  let au := if truthy (pget props "authType") then pget props "authType" else VStr "DIGEST" in
  exists r h',
    generateConnectionObject (VRef l) h = Ok r h' /\
    get_prop_in h' r "host" = inr hn /\ get_prop_in h' r "port" = inr pt /\
    get_prop_in h' r "user" = inr (pget props "username") /\
    get_prop_in h' r "password" = inr (pget props "password") /\
    get_prop_in h' r "authType" = inr au /\
    get_prop_in h' (VRef l) "hostname" = inr hn /\ get_prop_in h' (VRef l) "port" = inr pt /\
    get_prop_in h' (VRef l) "database" = inr db /\ get_prop_in h' (VRef l) "authType" = inr au.
Proof.
  intros H hn pt db au. rewrite (generateConnectionObject_eval h l pc props H).
  eexists _, _. split; [reflexivity|].
  assert (Hl : l < List.length h) by (eapply lookup_lt_Some; exact H).
  assert (Hr : forall o, (<[l := o]> h ++ [plain [("host", hn); ("port", pt);
                 ("user", pget props "username"); ("password", pget props "password");
                 ("authType", au)]])%list !! List.length h
                 = Some (plain [("host", hn); ("port", pt); ("user", pget props "username");
                                ("password", pget props "password"); ("authType", au)]))
    by (intros o; rewrite <- (length_insert h l o); apply lookup_new0).
  assert (Ho : forall o t, (<[l := o]> h ++ t)%list !! l = Some o)
    by (intros o t; apply lookup_app_l_Some; by apply list_lookup_insert_eq).
  cbn [get_prop_in]. rewrite Hr, Ho.
  cbn [assoc_get String.eqb Ascii.eqb Bool.eqb].
  unfold plain. cbn [assoc_get String.eqb Ascii.eqb Bool.eqb].
  repeat split; repeat (rewrite assoc_get_set || rewrite assoc_get_set_ne by done); reflexivity.
Qed.

Lemma generateConnectionObject_fields_witness :
  exists r h',
    generateConnectionObject (VRef 0) conn_settings_heap = Ok r h' /\
    get_prop_in h' r "host" = inr (VStr "db.local") /\
    get_prop_in h' r "port" = inr (VNum 8000) /\
    get_prop_in h' (VRef 0) "database" = inr (VStr "documents").
Proof.
  destruct (generateConnectionObject_fields conn_settings_heap 0 (Some "Object")
              [("host", VStr "db.local"); ("user", VStr "admin"); ("password", VStr "pw")]
              eq_refl)
    as (r & h' & E & Hh & Hp & _ & _ & _ & _ & _ & Hd & _).
  exists r, h'. split; [exact E|]. split; [exact Hh|]. split; [exact Hp|exact Hd].
Defined.

(** X2: the connection object's [user] is [options.username] only: a
    setting given as [user] (which the code reads into an unused local)
    is dropped, and [user] is undefined when [username] is absent. *)
Theorem generateConnectionObject_ignores_user (h : heap) (l : loc) (pc : option string)
    (props : list (string * val)) :
  h !! l = Some (OPlain pc props) ->
  assoc_get props "username" = None ->
  exists r h',
    generateConnectionObject (VRef l) h = Ok r h' /\ get_prop_in h' r "user" = inr VUndef.
Proof.
  intros H Hu. rewrite (generateConnectionObject_eval h l pc props H).
  eexists _, _. split; [reflexivity|].
  cbn [get_prop_in]. erewrite <- (length_insert h l), lookup_new0.
  cbn. unfold pget. by rewrite Hu.
Qed.

Lemma generateConnectionObject_ignores_user_witness :
  exists r h',
    generateConnectionObject (VRef 0) conn_settings_heap = Ok r h' /\
    get_prop_in h' r "user" = inr VUndef.
Proof.
  exact (generateConnectionObject_ignores_user conn_settings_heap 0 (Some "Object")
           [("host", VStr "db.local"); ("user", VStr "admin"); ("password", VStr "pw")]
           eq_refl eq_refl).
Defined.

Lemma index_of_from_found (es : list val) (x : val) (i : Z) :
  (0 <= i)%Z -> Z.leb 0 (index_of_from es x i) = existsb (fun e => js_seq e x) es.
Proof.
  revert i. induction es as [|e r IH]; intros i Hi; cbn; [done|].
  destruct (js_seq e x); cbn.
  - by apply Z.leb_le.
  - apply IH. lia.
Qed.

(** X3: when [fields] is an array, [idIncluded(fields, idName)] holds
    exactly when one of its elements is strictly equal to [idName]. *)
Theorem idIncluded_array (h : heap) (l : loc) (es : list val) (idName : val) :
  h !! l = Some (OArray es) ->
  idIncluded (VRef l) idName h = Ok (existsb (fun e => js_seq e idName) es) h.
Proof.
  intros H. unfold idIncluded, is_array, array_index_of, bind, ret. cbn. rewrite H.
  rewrite H. cbn. by rewrite index_of_from_found by lia.
Qed.

Lemma idIncluded_array_witness :
  idIncluded (VRef 0) (VStr "id") fields_array_heap = Ok true fields_array_heap.
Proof. exact (idIncluded_array fields_array_heap 0 [VStr "name"; VStr "id"] (VStr "id") eq_refl). Defined.

(** X4: when [fields] is an object with an own property named [idName],
    the id is included exactly when that property's value is truthy
    ([{id: true}] includes it, [{id: false}] or [{id: 0}] excludes it). *)
Theorem idIncluded_own (h : heap) (l : loc) (pc : option string)
    (props : list (string * val)) (k : string) (v : val) :
  h !! l = Some (OPlain pc props) ->
  assoc_get props k = Some v ->
  idIncluded (VRef l) (VStr k) h = Ok (truthy v) h.
Proof.
  intros H Hk.
  assert (Hg : get_prop (VRef l) k h = Ok v h)
    by (unfold get_prop, get_prop_in; by rewrite H, Hk).
  assert (Hp : has_property (VRef l) k h = Ok true h)
    by (unfold has_property; by rewrite H, Hk).
  unfold idIncluded, is_array, bind, ret. cbn [truthy negb]. rewrite H.
  cbn [js_to_string ret]. rewrite Hg.
  destruct (truthy v) eqn:Ev; [done|].
  cbn [js_to_string ret]. rewrite Hp. cbn [js_to_string ret]. rewrite Hg. by rewrite Ev.
Qed.

Lemma idIncluded_own_witness :
  idIncluded (VRef 0) (VStr "id") fields_excl_heap = Ok false fields_excl_heap.
Proof.
  exact (idIncluded_own fields_excl_heap 0 (Some "Object")
           [("id", VBool false); ("name", VBool true)] "id" (VBool false) eq_refl eq_refl).
Defined.

Lemma insert_by_index_in (p : string * Z) (k : string * Z) (l : list (string * Z)) :
  In p (insert_by_index k l) -> p = k \/ In p l.
Proof.
  induction l as [|k' r IH]; cbn.
  - intros [E|[]]. by left.
  - destruct (Z.leb k.2 k'.2); cbn.
    + intros [E|Hin]; [by left|by right].
    + intros [E|Hin]; [by right; left|]. destruct (IH Hin) as [E|Hin']; [by left|by right; right].
Qed.

Lemma js_key_order_in (f : string) (ks : list string) :
  In f (js_key_order ks) -> In f ks.
Proof.
  unfold js_key_order. intros Hin. apply in_app_or in Hin as [Hin|Hin].
  - apply in_map_iff in Hin as [[f' z] [Ef Hp]]. cbn in Ef. subst f'.
    revert z Hp. induction ks as [|k r IH]; intros z Hp; cbn in *; [done|].
    destruct (array_index k) as [v|].
    + apply insert_by_index_in in Hp as [E|Hp]; [injection E; auto|].
      right. by apply (IH z).
    + right. by apply (IH z).
  - apply filter_In in Hin. tauto.
Qed.

Lemma assoc_get_in (props : list (string * val)) (f : string) :
  In f (map fst props) -> exists v, assoc_get props f = Some v.
Proof.
  induction props as [|[k v] r IH]; cbn; [done|]. intros [E|Hin].
  - subst k. rewrite String.eqb_refl. eauto.
  - destruct (String.eqb f k); eauto.
Qed.

(** X5: when [fields] is an ordinary object without an own property named
    [idName] (an ordinary property name, not one of [Object.prototype]),
    [idIncluded] looks only at the first property [for-in] visits: the id
    is included when there is none or when that first value is falsy
    (an exclusion list), and excluded when it is truthy (an inclusion
    list, e.g. [{name: true}] drops the id). *)
Theorem idIncluded_absent (h : heap) (l : loc) (pc : option string)
    (props : list (string * val)) (k : string) :
  h !! l = Some (OPlain pc props) ->
  pc = None \/ pc = Some "Object" ->
  assoc_get props k = None ->
  k ∉ object_proto_names ->
  idIncluded (VRef l) (VStr k) h
  = Ok (match js_key_order (map fst props) with
        | [] => true
        | f :: _ => negb (truthy (pget props f))
        end) h.
Proof.
  intros H Hpc Hk Hnp.
  assert (Hc : String.eqb k "constructor" = false).
  { destruct (String.eqb k "constructor") eqn:E; [|done].
    apply String.eqb_eq in E. subst k. exfalso. apply Hnp. cbn. left. }
  assert (Hg : get_prop (VRef l) k h = Ok VUndef h)
    by (unfold get_prop, get_prop_in; by rewrite H, Hk, Hc).
  assert (Hp : has_property (VRef l) k h = Ok false h).
  { unfold has_property. rewrite H, Hk.
    destruct Hpc as [-> | ->]; [done|]. cbn. by rewrite bool_decide_eq_false_2. }
  assert (Hf : for_in_keys (VRef l) h = Ok (js_key_order (map fst props)) h).
  { unfold for_in_keys. rewrite H. by destruct Hpc as [-> | ->]. }
  unfold idIncluded, is_array, bind, ret. cbn [truthy negb]. rewrite H.
  cbn [js_to_string ret]. rewrite Hg. cbn [truthy].
  cbn [js_to_string ret]. rewrite Hp. rewrite Hf.
  destruct (js_key_order (map fst props)) as [|f fs] eqn:Eo; [done|].
  destruct (assoc_get_in props f) as [v Hv].
  { apply js_key_order_in. rewrite Eo. left. done. }
  assert (Hgf : get_prop (VRef l) f h = Ok v h)
    by (unfold get_prop, get_prop_in; by rewrite H, Hv).
  rewrite Hgf. unfold pget. by rewrite Hv.
Qed.

Lemma idIncluded_absent_witness :
  idIncluded (VRef 0) (VStr "id") fields_incl_heap = Ok false fields_incl_heap.
Proof.
  refine (idIncluded_absent fields_incl_heap 0 (Some "Object") [("name", VBool true)] "id"
            eq_refl (or_intror eq_refl) eq_refl _).
  vm_compute. intros Hin. repeat (inversion Hin as [|? ? ? Hin']; subst; clear Hin; rename Hin' into Hin).
Defined.

(** X6: [collectionName(model)] is [settings.ml.collection] of the
    registered model class when [settings.ml] and that collection are
    truthy, and the model name otherwise; for a model name that is not
    registered in [this._models] it throws a TypeError. *)
Theorem collectionName_result (h : heap) (models : val) (name : string) :
  (get_prop_in h models name = inr VUndef ->
   collectionName models name h = Throw TypeError h) /\
  (forall mc settings mls,
     get_prop_in h models name = inr mc -> get_prop_in h mc "settings" = inr settings ->
     get_prop_in h settings "ml" = inr mls -> truthy mls = false ->
     collectionName models name h = Ok (VStr name) h) /\
  (forall mc settings mls c,
     get_prop_in h models name = inr mc -> get_prop_in h mc "settings" = inr settings ->
     get_prop_in h settings "ml" = inr mls -> truthy mls = true ->
     get_prop_in h mls "collection" = inr c ->
     collectionName models name h = Ok (if truthy c then c else VStr name) h).
Proof.
  unfold collectionName, bind, get_prop, js_or. split; [|split].
  - intros H. by rewrite H.
  - intros mc settings mls H1 H2 H3 Hf. by rewrite H1, H2, H3, Hf.
  - intros mc settings mls c H1 H2 H3 Hm H4.
    rewrite H1, H2, H3. cbv beta iota. rewrite Hm. cbv beta iota. rewrite H2. cbv beta iota. rewrite H3. cbv beta iota. rewrite H4. cbv beta iota. by destruct (truthy c).
Qed.

Lemma collectionName_result_witness :
  collectionName (VRef 0) "Widget" models_heap = Ok (VStr "widgets") models_heap.
Proof.
  exact (proj2 (proj2 (collectionName_result models_heap (VRef 0) "Widget"))
           (VRef 1) (VRef 2) (VRef 3) (VStr "widgets") eq_refl eq_refl eq_refl eq_refl eq_refl).
Defined.

(** The store's answer to the request [execute] sends is the one its
    callback receives. *)
Lemma execute_answer (D : Type) (store : string -> list val -> M (st D) (val * val))
    (c : string) (ps : list val) (k : val -> val -> M (st D) unit) (s s2 : st D) (r : val * val) :
  store c ps (mk_st (st_heap s) (st_docs s) (st_log s ++ [EExec c ps])%list) = Ok r s2 ->
  execute D store c ps k s = k r.1 r.2 s2.
Proof. intros H. unfold execute, bind, emit. by rewrite H. Qed.

Lemma buildWhere_nonobj (ok : val -> val -> bool) (fuel : nat) (m : model) (where_ : val) (h : heap) :
  (0 < fuel)%nat -> where_ = VNull \/ typeof_object where_ = false ->
  buildWhere ok fuel m where_ h = Ok (VRef (List.length h)) (h ++ [plain []])%list.
Proof.
  intros Hf Hw. destruct fuel as [|f]; [lia|]. cbn [buildWhere]. unfold bind, alloc.
  replace (js_seq where_ VNull || negb (typeof_object where_))%bool with true; [done|].
  destruct Hw as [-> | ->]; [done|]. by rewrite orb_true_r.
Qed.

Lemma buildWhere_ref (ok : val -> val -> bool) (fuel : nat) (m : model) (where_ : val)
    (h h1 : heap) (q : val) :
  buildWhere ok fuel m where_ h = Ok q h1 -> exists l, q = VRef l.
Proof.
  intros E. pose proof (buildWhere_frame h ok fuel m where_ h) as F.
  rewrite E in F. destruct F as [_ (l & -> & _)]; [|done|eauto].
  exists []. by rewrite app_nil_r.
Qed.

(** X7: [exists(model, uri)] sends the store one [findOne] request for
    [{_uri: uri}] and calls the callback once, with the store's error and
    [true] exactly when there is no error and the store returned a
    (truthy) document. *)
Theorem exists_result (D : Type) (store : string -> list val -> M (st D) (val * val))
    (m : model) (uri options : val) (f : string) (s : st D)
    (e d : val) (h2 : heap) (d2 : D) (l2 : list event) :
  store "findOne" [VRef (List.length (st_heap s))]
    (mk_st (st_heap s ++ [plain [("_uri", uri)]]) (st_docs s)
           (st_log s ++ [EExec "findOne" [VRef (List.length (st_heap s))]]))%list
  = Ok (e, d) (mk_st h2 d2 l2) ->
  exists_ D store m uri options (VFun f) s
  = Ok tt (mk_st h2 d2 (l2 ++ [ECall (VFun f) [e; VBool (negb (truthy e) && truthy d)]])%list).
Proof.
  intros H. unfold exists_, bind, lift, alloc. cbn -[execute].
  erewrite execute_answer by (cbn; exact H). reflexivity.
Qed.

Lemma exists_result_witness :
  exists_ unit found_store Widget (VStr "/w/1.json") VUndef (VFun "cb") (mk_st attrs_heap tt [])
  = Ok tt (mk_st (attrs_heap ++ [plain [("_uri", VStr "/w/1.json")]])%list tt
             [EExec "findOne" [VRef 1]; ECall (VFun "cb") [VNull; VBool true]]).
Proof.
  exact (exists_result unit found_store Widget (VStr "/w/1.json") VUndef "cb"
           (mk_st attrs_heap tt []) VNull (VRef 0)
           (attrs_heap ++ [plain [("_uri", VStr "/w/1.json")]])%list tt
           [EExec "findOne" [VRef 1]] eq_refl).
Defined.

(** X8: [destroy(model, uri)] sends the store one [remove] request for
    [{_uri: uri}]; it passes [(err, result && result.ops)] to the callback
    once, and with no callback it completes without calling anything. *)
Theorem destroy_result (D : Type) (store : string -> list val -> M (st D) (val * val))
    (m : model) (uri options : val) (f : string) (s : st D)
    (e r ops : val) (h2 : heap) (d2 : D) (l2 : list event) :
  store "remove" [VRef (List.length (st_heap s))]
    (mk_st (st_heap s ++ [plain [("_uri", uri)]]) (st_docs s)
           (st_log s ++ [EExec "remove" [VRef (List.length (st_heap s))]]))%list
  = Ok (e, r) (mk_st h2 d2 l2) ->
  (truthy r = false /\ ops = r) \/ (truthy r = true /\ get_prop_in h2 r "ops" = inr ops) ->
  destroy D store m uri options (VFun f) s
  = Ok tt (mk_st h2 d2 (l2 ++ [ECall (VFun f) [e; ops]])%list) /\
  destroy D store m uri options VUndef s = Ok tt (mk_st h2 d2 l2).
Proof.
  intros H Hr. unfold destroy, bind, lift, alloc. cbn -[execute].
  split; erewrite execute_answer by (cbn; exact H); cbn -[get_prop_in];
    destruct Hr as [[Hr ->] | [Hr Ho]]; rewrite Hr; try reflexivity;
    unfold get_prop; cbn -[get_prop_in]; rewrite Ho; reflexivity.
Qed.

Lemma destroy_result_witness :
  destroy unit found_store Widget (VStr "/w/1.json") VUndef (VFun "cb")
    (mk_st [plain [("ops", VNum 1)]] tt [])
  = Ok tt (mk_st [plain [("ops", VNum 1)]; plain [("_uri", VStr "/w/1.json")]] tt
             [EExec "remove" [VRef 1]; ECall (VFun "cb") [VNull; VNum 1]]) /\
  destroy unit found_store Widget (VStr "/w/1.json") VUndef VUndef
    (mk_st [plain [("ops", VNum 1)]] tt [])
  = Ok tt (mk_st [plain [("ops", VNum 1)]; plain [("_uri", VStr "/w/1.json")]] tt
             [EExec "remove" [VRef 1]]).
Proof.
  exact (destroy_result unit found_store Widget (VStr "/w/1.json") VUndef "cb"
           (mk_st [plain [("ops", VNum 1)]] tt []) VNull (VRef 0) (VNum 1)
           [plain [("ops", VNum 1)]; plain [("_uri", VStr "/w/1.json")]] tt
           [EExec "remove" [VRef 1]] eq_refl (or_intror (conj eq_refl eq_refl))).
Defined.

(** X9: [count(model, where)] with a [where] that is not an object (e.g.
    undefined) sends the store a [count] request with a fresh empty query
    [{}], which counts every document, and passes the store's
    [(err, count)] to the callback unchanged. *)
Theorem count_non_object (D : Type) (store : string -> list val -> M (st D) (val * val))
    (ok : val -> val -> bool) (fuel : nat) (m : model) (where_ options : val) (f : string)
    (s : st D) (e c : val) (h2 : heap) (d2 : D) (l2 : list event) :
  (0 < fuel)%nat ->
  where_ = VNull \/ typeof_object where_ = false ->
  store "count" [VRef (List.length (st_heap s))]
    (mk_st (st_heap s ++ [plain []]) (st_docs s)
           (st_log s ++ [EExec "count" [VRef (List.length (st_heap s))]]))%list
  = Ok (e, c) (mk_st h2 d2 l2) ->
  count D store ok fuel m where_ options (VFun f) s
  = Ok tt (mk_st h2 d2 (l2 ++ [ECall (VFun f) [e; c]])%list).
Proof.
  intros Hf Hw H. unfold count, bind, lift. rewrite (buildWhere_nonobj ok fuel m where_ _ Hf Hw).
  cbn -[execute]. erewrite execute_answer by (cbn; exact H). reflexivity.
Qed.

Lemma count_non_object_witness :
  count unit three_store any_regexp 2 Widget VUndef VUndef (VFun "cb") (mk_st [] tt [])
  = Ok tt (mk_st [plain []] tt [EExec "count" [VRef 0]; ECall (VFun "cb") [VNull; VNum 3]]).
Proof.
  refine (count_non_object unit three_store any_regexp 2 Widget VUndef VUndef "cb"
            (mk_st [] tt []) VNull (VNum 3) [plain []] tt [EExec "count" [VRef 0]] _ _ eq_refl).
  - lia.
  - right. reflexivity.
Defined.

(** X10: called as [destroyAll(model, cb)] (no callback argument, a function
    in the place of [where]), [destroyAll] takes that function as its
    callback, sends the store a [remove] request with a fresh empty query
    [{}], which targets every document, and calls [cb] once with [null]
    and [{count: info.result.n}]. *)
Theorem destroyAll_where_callback (D : Type) (store : string -> list val -> M (st D) (val * val))
    (ok : val -> val -> bool) (fuel : nat) (m : model) (g : string) (options cb : val)
    (s : st D) (info r n : val) (h2 : heap) (d2 : D) (l2 : list event) :
  (0 < fuel)%nat -> truthy cb = false ->
  store "remove" [VRef (List.length (st_heap s))]
    (mk_st (st_heap s ++ [plain []]) (st_docs s)
           (st_log s ++ [EExec "remove" [VRef (List.length (st_heap s))]]))%list
  = Ok (VNull, info) (mk_st h2 d2 l2) ->
  get_prop_in h2 info "result" = inr r -> truthy r = true -> get_prop_in h2 r "n" = inr n ->
  destroyAll D store ok fuel m (VFun g) options cb s
  = Ok tt (mk_st (h2 ++ [plain [("count", n)]]) d2
             (l2 ++ [ECall (VFun g) [VNull; VRef (List.length h2)]]))%list.
Proof.
  intros Hf Hcb H Hr Htr Hn. unfold destroyAll. rewrite Hcb. cbn [negb typeof_function andb].
  unfold bind, lift. rewrite (buildWhere_nonobj ok fuel m VUndef _ Hf (or_intror eq_refl)).
  cbn -[execute]. erewrite execute_answer by (cbn; exact H). cbn -[get_prop_in].
  unfold get_prop. rewrite Hr. cbn -[get_prop_in]. rewrite Htr. cbn -[get_prop_in]. rewrite Hr.
  cbn -[get_prop_in]. rewrite Hn. reflexivity.
Qed.

Lemma destroyAll_where_callback_witness :
  destroyAll unit two_removed_store any_regexp 2 Widget (VFun "cb") VUndef VUndef (mk_st [] tt [])
  = Ok tt (mk_st [plain []; plain [("n", VNum 2)]; plain [("result", VRef 1)]; plain [("count", VNum 2)]]
             tt [EExec "remove" [VRef 0]; ECall (VFun "cb") [VNull; VRef 3]]).
Proof.
  refine (destroyAll_where_callback unit two_removed_store any_regexp 2 Widget "cb" VUndef VUndef
            (mk_st [] tt []) (VRef 2) (VRef 1) (VNum 2)
            [plain []; plain [("n", VNum 2)]; plain [("result", VRef 1)]] tt
            [EExec "remove" [VRef 0]] _ eq_refl eq_refl eq_refl eq_refl eq_refl).
  lia.
Defined.

(** X11: when the store answers [destroyAll]'s [remove] request with an
    error, the callback is called once with that error alone ([info] is
    not read); when it answers without error but with no [info] object
    (null or undefined), reading [info.result] throws a TypeError and the
    callback is never called. *)
Theorem destroyAll_store_answers (D : Type) (store : string -> list val -> M (st D) (val * val))
    (ok : val -> val -> bool) (fuel : nat) (m : model) (where_ options : val) (g : string)
    (s : st D) (q : val) (h1 : heap) (e info : val) (h2 : heap) (d2 : D) (l2 : list event) :
  buildWhere ok fuel m where_ (st_heap s) = Ok q h1 ->
  store "remove" [q] (mk_st h1 (st_docs s) (st_log s ++ [EExec "remove" [q]]))%list
  = Ok (e, info) (mk_st h2 d2 l2) ->
  (truthy e = true ->
   destroyAll D store ok fuel m where_ options (VFun g) s
   = Ok tt (mk_st h2 d2 (l2 ++ [ECall (VFun g) [e]])%list)) /\
  (truthy e = false -> info = VNull \/ info = VUndef ->
   destroyAll D store ok fuel m where_ options (VFun g) s = Throw TypeError (mk_st h2 d2 l2)).
Proof.
  intros Hw H. destruct (buildWhere_ref ok fuel m where_ _ _ _ Hw) as [lq ->].
  unfold destroyAll. cbn [truthy negb andb]. unfold bind, lift. rewrite Hw.
  cbn -[execute]. erewrite execute_answer by (cbn; exact H). cbn -[get_prop_in].
  split.
  - intros He. by rewrite He.
  - intros He Hi. rewrite He. by destruct Hi as [-> | ->].
Qed.

Lemma destroyAll_store_answers_witness :
  destroyAll unit failing_store any_regexp 2 Widget VUndef VUndef (VFun "cb") (mk_st [] tt [])
  = Ok tt (mk_st [plain []] tt [EExec "remove" [VRef 0]; ECall (VFun "cb") [VStr "boom"]]) /\
  destroyAll unit null_store any_regexp 2 Widget VUndef VUndef (VFun "cb") (mk_st [] tt [])
  = Throw TypeError (mk_st [plain []] tt [EExec "remove" [VRef 0]]).
Proof.
  split.
  - exact (proj1 (destroyAll_store_answers unit failing_store any_regexp 2 Widget VUndef VUndef "cb"
              (mk_st [] tt []) (VRef 0) [plain []] (VStr "boom") VUndef [plain []] tt
              [EExec "remove" [VRef 0]] eq_refl eq_refl) eq_refl).
  - exact (proj2 (destroyAll_store_answers unit null_store any_regexp 2 Widget VUndef VUndef "cb"
              (mk_st [] tt []) (VRef 0) [plain []] VNull VNull [plain []] tt
              [EExec "remove" [VRef 0]] eq_refl eq_refl) eq_refl (or_introl eq_refl)).
Defined.

(** X12: after a successful [save] (the id restored, [_uri] removed), the
    third callback argument [info] is [{isNewInstance: !!result.result.upserted}]
    when the store's [result.result] is truthy with [ok === 1] and [n === 1],
    and the empty object [{}] otherwise: for any other result format, and
    when [result] or [result.result] is falsy. The callback is called once
    with [(err, result && result.ops, info)]. *)
Theorem save_info (D : Type) (store : string -> list val -> M (st D) (val * val))
    (getIdValue : model -> val -> M heap val) (setIdValue : model -> val -> val -> M heap unit)
    (m : model) (data options : val) (f : string) (s : st D)
    (idv : val) (h1 : heap) (e result : val) (h2 : heap) (d2 : D) (l2 : list event)
    (h3 h4 : heap) :
  getIdValue m data (st_heap s) = Ok idv h1 ->
  store "save" [data] (mk_st h1 (st_docs s) (st_log s ++ [EExec "save" [data]]))%list
  = Ok (e, result) (mk_st h2 d2 l2) ->
  truthy e = false ->
  setIdValue m data idv h2 = Ok tt h3 ->
  js_seq (m_idName m) (VStr "_uri") = false ->
  delete_prop data "_uri" h3 = Ok tt h4 ->
  (forall rr okv n up ops,
   truthy result = true ->
   get_prop_in h4 result "result" = inr rr -> truthy rr = true ->
   get_prop_in h4 rr "ok" = inr okv -> get_prop_in h4 rr "n" = inr n ->
   get_prop_in h4 rr "upserted" = inr up -> get_prop_in h4 result "ops" = inr ops ->
   save D store getIdValue setIdValue m data options (VFun f) s
   = Ok tt (mk_st (h4 ++ [plain (if (js_seq okv (VNum 1) && js_seq n (VNum 1))%bool
                                 then [("isNewInstance", VBool (truthy up))] else [])]) d2
              (l2 ++ [ECall (VFun f) [e; ops; VRef (List.length h4)]]))%list) /\
  (forall rr ops,
   truthy result = true ->
   get_prop_in h4 result "result" = inr rr -> truthy rr = false ->
   get_prop_in h4 result "ops" = inr ops ->
   save D store getIdValue setIdValue m data options (VFun f) s
   = Ok tt (mk_st (h4 ++ [plain []]) d2
              (l2 ++ [ECall (VFun f) [e; ops; VRef (List.length h4)]]))%list) /\
  (truthy result = false ->
   save D store getIdValue setIdValue m data options (VFun f) s
   = Ok tt (mk_st (h4 ++ [plain []]) d2
              (l2 ++ [ECall (VFun f) [e; result; VRef (List.length h4)]]))%list).
Proof.
  intros Hid H He Hset Hidn Hdel.
  split; [intros rr okv n up ops Htr Hr Htrr Hok Hn Hup Hops
         |split; [intros rr ops Htr Hr Htrr Hops | intros Htr]].
  all: unfold save, bind, lift; rewrite Hid; cbn -[execute];
       erewrite execute_answer by (cbn; exact H); cbn -[get_prop_in delete_prop js_seq];
       rewrite He; cbn -[get_prop_in delete_prop js_seq]; rewrite Hset;
       cbn -[get_prop_in delete_prop js_seq]; rewrite Hidn; cbn -[get_prop_in delete_prop];
       rewrite Hdel; cbn -[get_prop_in]; rewrite Htr; cbn -[get_prop_in]; unfold get_prop.
  - pose proof Hops as Hops0.
    apply (get_prop_ext h4 [plain []]) in Hr, Hok, Hn, Hup, Hops.
    repeat (first [rewrite Hr | rewrite Hok | rewrite Hn | rewrite Hup | rewrite Hops | rewrite Htrr];
            cbn -[get_prop_in js_seq]).
    destruct (js_seq okv (VNum 1)); cbn -[get_prop_in js_seq];
      repeat (first [rewrite Hr | rewrite Hok | rewrite Hn | rewrite Hup | rewrite Hops];
              cbn -[get_prop_in js_seq]);
      [destruct (js_seq n (VNum 1)); cbn -[get_prop_in js_seq];
       repeat (first [rewrite Hr | rewrite Hok | rewrite Hn | rewrite Hup | rewrite Hops];
               cbn -[get_prop_in js_seq])|].
    all: try (unfold set_prop; rewrite lookup_new0; cbn -[get_prop_in];
              rewrite insert_new0; cbn -[get_prop_in];
              rewrite (get_prop_ext h4 _ _ _ _ Hops0); cbn -[get_prop_in]).
    all: reflexivity.
  - apply (get_prop_ext h4 [plain []]) in Hr, Hops.
    repeat (first [rewrite Hr | rewrite Hops | rewrite Htrr]; cbn -[get_prop_in]).
    reflexivity.
  - repeat (rewrite Htr; cbn -[get_prop_in]). reflexivity.
Qed.

(** X13: when the store answers [save] with an error and no result, [save]
    neither restores the id nor deletes [_uri] (the heap is the one the
    store left, plus the new empty [info]), and calls the callback once with
    [(err, result, {})]. *)
Theorem save_store_error (D : Type) (store : string -> list val -> M (st D) (val * val))
    (getIdValue : model -> val -> M heap val) (setIdValue : model -> val -> val -> M heap unit)
    (m : model) (data options : val) (f : string) (s : st D)
    (idv : val) (h1 : heap) (e result : val) (h2 : heap) (d2 : D) (l2 : list event) :
  getIdValue m data (st_heap s) = Ok idv h1 ->
  store "save" [data] (mk_st h1 (st_docs s) (st_log s ++ [EExec "save" [data]]))%list
  = Ok (e, result) (mk_st h2 d2 l2) ->
  truthy e = true -> truthy result = false ->
  save D store getIdValue setIdValue m data options (VFun f) s
  = Ok tt (mk_st (h2 ++ [plain []]) d2 (l2 ++ [ECall (VFun f) [e; result; VRef (List.length h2)]]))%list.
Proof.
  intros Hid H He Hr.
  unfold save, bind, lift. rewrite Hid. cbn -[execute].
  erewrite execute_answer by (cbn; exact H). cbn -[get_prop_in].
  rewrite He. cbn -[get_prop_in]. rewrite Hr. cbn -[get_prop_in]. rewrite Hr. reflexivity.
Qed.

(** X14: after a successful [insert], [create] reads the new document's uri
    from [result.documents[0].uri], converts it with [String] when the
    model's id property is declared of type [String], writes it into
    [data[idName]] and calls the callback once with [(err, id)]. *)
Theorem create_success (D : Type) (store : string -> list val -> M (st D) (val * val))
    (getIdValue : model -> val -> M heap val) (models : val)
    (m : model) (options : val) (f : string) (s : st D)
    (ld : loc) (pc : option string) (dprops : list (string * val)) (k : string)
    (idv0 : val) (h1 : heap) (e result : val) (h2 : heap) (d2 : D) (l2 : list event)
    (docs doc u mc props p ty : val) (su : string) :
  getIdValue m (VRef ld) (st_heap s) = Ok idv0 h1 ->
  store "insert" [VRef ld] (mk_st h1 (st_docs s) (st_log s ++ [EExec "insert" [VRef ld]]))%list
  = Ok (e, result) (mk_st h2 d2 l2) ->
  truthy e = false ->
  get_prop_in h2 result "documents" = inr docs -> get_prop_in h2 docs "0" = inr doc ->
  get_prop_in h2 doc "uri" = inr u ->
  get_prop_in h2 models (m_name m) = inr mc -> get_prop_in h2 mc "properties" = inr props ->
  m_idName m = VStr k -> get_prop_in h2 props k = inr p -> get_prop_in h2 p "type" = inr ty ->
  (js_seq ty (VFun "String") = true -> js_to_string u h2 = Ok su h2) ->
  h2 !! ld = Some (OPlain pc dprops) ->
  let idv := if js_seq ty (VFun "String") then VStr su else u in
  create D store getIdValue models m (VRef ld) options (VFun f) s
  = Ok tt (mk_st (<[ld := OPlain pc (assoc_set dprops k idv)]> h2) d2
             (l2 ++ [ECall (VFun f) [e; idv]]))%list.
Proof.
  intros Hid H He Hd H0 Hu Hm Hp Hk Hpk Hty Hs Hl idv.
  unfold create, bind, lift. rewrite Hid. cbn -[execute].
  erewrite execute_answer by (cbn; exact H). cbn -[get_prop_in js_seq to_key js_to_string].
  rewrite He. cbn -[get_prop_in js_seq to_key js_to_string]. unfold get_prop.
  rewrite Hd. cbn -[get_prop_in js_seq to_key js_to_string].
  rewrite H0. cbn -[get_prop_in js_seq to_key js_to_string].
  rewrite Hu. cbn -[get_prop_in js_seq to_key js_to_string].
  rewrite Hm. cbn -[get_prop_in js_seq to_key js_to_string].
  rewrite Hp. cbn -[get_prop_in js_seq to_key js_to_string].
  assert (Tk : to_key (VStr k) = fun h => Ok k h) by reflexivity.
  rewrite Hk, Tk. cbn -[get_prop_in js_seq to_key js_to_string].
  rewrite Hpk. cbn -[get_prop_in js_seq to_key js_to_string].
  rewrite Hty. cbn -[get_prop_in js_seq to_key js_to_string].
  subst idv. destruct (js_seq ty (VFun "String")).
  - cbn -[get_prop_in js_to_string]. rewrite (Hs eq_refl). cbn -[get_prop_in].
    unfold set_prop. rewrite Hl. reflexivity.
  - cbn -[get_prop_in]. unfold set_prop. rewrite Hl. reflexivity.
Qed.

(** X15: when the store answers [insert] with an error, [create] calls the
    callback once with [(err)] only and changes nothing else; when it
    answers with no error but an empty [documents] array, [create] throws a
    TypeError (reading [uri] of [undefined]) and never calls the callback. *)
Theorem create_store_answers (D : Type) (store : string -> list val -> M (st D) (val * val))
    (getIdValue : model -> val -> M heap val) (models : val)
    (m : model) (data options : val) (f : string) (s : st D)
    (idv0 : val) (h1 : heap) (e result : val) (h2 : heap) (d2 : D) (l2 : list event) :
  getIdValue m data (st_heap s) = Ok idv0 h1 ->
  store "insert" [data] (mk_st h1 (st_docs s) (st_log s ++ [EExec "insert" [data]]))%list
  = Ok (e, result) (mk_st h2 d2 l2) ->
  (truthy e = true ->
   create D store getIdValue models m data options (VFun f) s
   = Ok tt (mk_st h2 d2 (l2 ++ [ECall (VFun f) [e]]))%list) /\
  (forall ld, truthy e = false -> get_prop_in h2 result "documents" = inr (VRef ld) ->
   h2 !! ld = Some (OArray []) ->
   create D store getIdValue models m data options (VFun f) s = Throw TypeError (mk_st h2 d2 l2)).
Proof.
  intros Hid H. split.
  - intros He. unfold create, bind, lift. rewrite Hid. cbn -[execute].
    erewrite execute_answer by (cbn; exact H). cbn -[get_prop_in].
    rewrite He. reflexivity.
  - intros ld He Hd Hl. unfold create, bind, lift. rewrite Hid. cbn -[execute].
    erewrite execute_answer by (cbn; exact H). cbn -[get_prop_in].
    rewrite He. cbn -[get_prop_in]. unfold get_prop. rewrite Hd. cbn -[get_prop_in].
    cbn [get_prop_in]. rewrite Hl. reflexivity.
Qed.

Lemma save_info_witness :
  save unit upsert_store base_getIdValue base_setIdValue Widget (VRef 0) VUndef (VFun "cb")
       (mk_st widget_data_heap tt [])
  = Ok tt (mk_st (widget_data_heap ++
                  [plain [("ok", VNum 1); ("n", VNum 1); ("upserted", VBool true)];
                   plain [("result", VRef 1); ("ops", VStr "op")];
                   plain [("isNewInstance", VBool true)]])%list tt
                 [EExec "save" [VRef 0]; ECall (VFun "cb") [VNull; VStr "op"; VRef 3]]) /\
  save unit null_store base_getIdValue base_setIdValue Widget (VRef 0) VUndef (VFun "cb")
       (mk_st widget_data_heap tt [])
  = Ok tt (mk_st (widget_data_heap ++ [plain []])%list tt
                 [EExec "save" [VRef 0]; ECall (VFun "cb") [VNull; VNull; VRef 1]]).
Proof.
  split.
  - exact (proj1 (save_info unit upsert_store base_getIdValue base_setIdValue Widget (VRef 0) VUndef
             "cb" (mk_st widget_data_heap tt []) (VNum 7) widget_data_heap VNull (VRef 2)
             (widget_data_heap ++
            [plain [("ok", VNum 1); ("n", VNum 1); ("upserted", VBool true)];
             plain [("result", VRef 1); ("ops", VStr "op")]])%list tt [EExec "save" [VRef 0]] (widget_data_heap ++
            [plain [("ok", VNum 1); ("n", VNum 1); ("upserted", VBool true)];
             plain [("result", VRef 1); ("ops", VStr "op")]])%list (widget_data_heap ++
            [plain [("ok", VNum 1); ("n", VNum 1); ("upserted", VBool true)];
             plain [("result", VRef 1); ("ops", VStr "op")]])%list
             eq_refl eq_refl eq_refl eq_refl eq_refl eq_refl)
             (VRef 1) (VNum 1) (VNum 1) (VBool true) (VStr "op")
             eq_refl eq_refl eq_refl eq_refl eq_refl eq_refl eq_refl).
  - exact (proj2 (proj2 (save_info unit null_store base_getIdValue base_setIdValue Widget (VRef 0)
             VUndef "cb" (mk_st widget_data_heap tt []) (VNum 7) widget_data_heap VNull VNull
             widget_data_heap tt [EExec "save" [VRef 0]] widget_data_heap widget_data_heap
             eq_refl eq_refl eq_refl eq_refl eq_refl eq_refl)) eq_refl).
Defined.

Lemma save_store_error_witness :
  save unit failing_store base_getIdValue base_setIdValue Widget (VRef 0) VUndef (VFun "cb")
       (mk_st widget_data_heap tt [])
  = Ok tt (mk_st (widget_data_heap ++ [plain []])%list tt
                 [EExec "save" [VRef 0]; ECall (VFun "cb") [VStr "boom"; VUndef; VRef 1]]).
Proof.
  exact (save_store_error unit failing_store base_getIdValue base_setIdValue Widget (VRef 0) VUndef
           "cb" (mk_st widget_data_heap tt []) (VNum 7) widget_data_heap (VStr "boom") VUndef
           widget_data_heap tt [EExec "save" [VRef 0]] eq_refl eq_refl eq_refl eq_refl).
Defined.

Lemma create_success_witness :
  create unit insert_store base_getIdValue (VRef 1) Widget (VRef 0) VUndef (VFun "cb")
         (mk_st create_heap tt [])
  = Ok tt (mk_st (<[0 := plain [("name", VStr "b"); ("id", VStr "9")]]>
                    (create_heap ++ [plain [("uri", VNum 9)]; OArray [VRef 5];
                                     plain [("documents", VRef 6)]])%list) tt
                 [EExec "insert" [VRef 0]; ECall (VFun "cb") [VNull; VStr "9"]]).
Proof.
  exact (create_success unit insert_store base_getIdValue (VRef 1) Widget VUndef "cb"
           (mk_st create_heap tt []) 0 (Some "Object") [("name", VStr "b")] "id" VUndef create_heap
           VNull (VRef 7)
           (create_heap ++ [plain [("uri", VNum 9)]; OArray [VRef 5];
                            plain [("documents", VRef 6)]])%list tt [EExec "insert" [VRef 0]]
           (VRef 6) (VRef 5) (VNum 9) (VRef 2) (VRef 3) (VRef 4) (VFun "String") "9"
           eq_refl eq_refl eq_refl eq_refl eq_refl eq_refl eq_refl eq_refl eq_refl eq_refl eq_refl
           (fun _ => eq_refl) eq_refl).
Defined.

Lemma create_store_answers_witness :
  create unit failing_store base_getIdValue (VRef 1) Widget (VRef 0) VUndef (VFun "cb")
         (mk_st create_heap tt [])
  = Ok tt (mk_st create_heap tt [EExec "insert" [VRef 0]; ECall (VFun "cb") [VStr "boom"]]) /\
  create unit empty_insert_store base_getIdValue (VRef 1) Widget (VRef 0) VUndef (VFun "cb")
         (mk_st create_heap tt [])
  = Throw TypeError (mk_st (create_heap ++ [OArray []; plain [("documents", VRef 5)]])%list tt
                           [EExec "insert" [VRef 0]]).
Proof.
  split.
  - exact (proj1 (create_store_answers unit failing_store base_getIdValue (VRef 1) Widget (VRef 0)
                    VUndef "cb" (mk_st create_heap tt []) VUndef create_heap (VStr "boom") VUndef
                    create_heap tt [EExec "insert" [VRef 0]] eq_refl eq_refl) eq_refl).
  - exact (proj2 (create_store_answers unit empty_insert_store base_getIdValue (VRef 1) Widget
                    (VRef 0) VUndef "cb" (mk_st create_heap tt []) VUndef create_heap VNull (VRef 6)
                    (create_heap ++ [OArray []; plain [("documents", VRef 5)]])%list tt
                    [EExec "insert" [VRef 0]] eq_refl eq_refl) 5 eq_refl eq_refl eq_refl).
Defined.

(** X16: [updateAll] deletes the model's id property from the caller's
    [data] before translating it, and sends one [update] request with the
    options [{multi: true, upsert: false}]. It then calls the callback once
    with [(err)] on a store error, and otherwise with
    [(err, {count: info.result.n})], the count being [undefined] when
    [info.result] is falsy; when [info] is [null] or [undefined] it throws a
    TypeError and never calls the callback. *)
Theorem updateAll_answers (D : Type) (store : string -> list val -> M (st D) (val * val))
    (flag : val) (ok : val -> val -> bool) (fuel : nat)
    (m : model) (where_ data options : val) (f : string) (s : st D)
    (w : val) (h1 : heap) (k : string) (h2 : heap) (d : val) (h3 : heap)
    (e info : val) (h4 : heap) (d4 : D) (l4 : list event) :
  buildWhere ok fuel m where_ (st_heap s) = Ok w h1 ->
  to_key (m_idName m) h1 = Ok k h1 ->
  delete_prop data k h1 = Ok tt h2 ->
  parseUpdateData flag data h2 = Ok d h3 ->
  store "update" [w; d; VRef (List.length h3)]
    (mk_st (h3 ++ [plain [("multi", VBool true); ("upsert", VBool false)]]) (st_docs s)
           (st_log s ++ [EExec "update" [w; d; VRef (List.length h3)]]))%list
  = Ok (e, info) (mk_st h4 d4 l4) ->
  (truthy e = true ->
   updateAll D store flag ok fuel m where_ data options (VFun f) s
   = Ok tt (mk_st h4 d4 (l4 ++ [ECall (VFun f) [e]]))%list) /\
  (forall r n, truthy e = false -> get_prop_in h4 info "result" = inr r -> truthy r = true ->
   get_prop_in h4 r "n" = inr n ->
   updateAll D store flag ok fuel m where_ data options (VFun f) s
   = Ok tt (mk_st (h4 ++ [plain [("count", n)]]) d4
              (l4 ++ [ECall (VFun f) [e; VRef (List.length h4)]]))%list) /\
  (forall r, truthy e = false -> get_prop_in h4 info "result" = inr r -> truthy r = false ->
   updateAll D store flag ok fuel m where_ data options (VFun f) s
   = Ok tt (mk_st (h4 ++ [plain [("count", VUndef)]]) d4
              (l4 ++ [ECall (VFun f) [e; VRef (List.length h4)]]))%list) /\
  (truthy e = false -> info = VNull \/ info = VUndef ->
   updateAll D store flag ok fuel m where_ data options (VFun f) s
   = Throw TypeError (mk_st h4 d4 l4)).
Proof.
  intros Hw Hk Hdel Hp Hst.
  split; [intros He | split; [intros r n He Hr Htr Hn | split; [intros r He Hr Htr | intros He Hi]]].
  all: unfold updateAll, bind, lift; rewrite Hw;
       cbn -[to_key delete_prop parseUpdateData buildWhere execute];
       rewrite Hk; cbn -[delete_prop parseUpdateData execute];
       rewrite Hdel; cbn -[parseUpdateData execute];
       rewrite Hp; cbn -[execute];
       erewrite execute_answer by (cbn; exact Hst); cbn -[get_prop_in];
       rewrite He; cbn -[get_prop_in].
  - reflexivity.
  - unfold get_prop.
    repeat (first [rewrite Hr | rewrite Htr | rewrite Hn]; cbn -[get_prop_in]). reflexivity.
  - unfold get_prop.
    repeat (first [rewrite Hr | rewrite Htr]; cbn -[get_prop_in]). reflexivity.
  - destruct Hi as [-> | ->]; reflexivity.
Qed.

(** X17: when the store's [findAndModify] answer holds a document
    ([result.value] truthy), [updateAttributes] sets the document's id to
    [uri], deletes its [_uri] property unless the id property is [_uri]
    itself (then [_uri] is kept), and calls the callback once with the
    store's error, unchanged, and the document. *)
Theorem updateAttributes_found (D : Type) (store : string -> list val -> M (st D) (val * val))
    (setIdValue : model -> val -> val -> M heap unit) (flag : val)
    (m : model) (uri data options : val) (f : string) (s : st D)
    (d : val) (h1 : heap) (e result : val) (h2 : heap) (d2 : D) (l2 : list event)
    (o : val) (h3 : heap) :
  parseUpdateData flag data (st_heap s) = Ok d h1 ->
  store "findAndModify"
    [VRef (List.length h1); VRef (List.length h1 + 2); d; VRef (List.length h1 + 3)]
    (mk_st (h1 ++ [plain [("_uri", uri)]; OArray [VStr "_uri"; VStr "asc"];
                   OArray [VRef (List.length h1 + 1)]; plain []]) (st_docs s)
           (st_log s ++ [EExec "findAndModify"
                           [VRef (List.length h1); VRef (List.length h1 + 2); d;
                            VRef (List.length h1 + 3)]]))%list
  = Ok (e, result) (mk_st h2 d2 l2) ->
  truthy result = true -> get_prop_in h2 result "value" = inr o -> truthy o = true ->
  setIdValue m o uri h2 = Ok tt h3 ->
  (forall h4, js_seq (m_idName m) (VStr "_uri") = false ->
   delete_prop o "_uri" h3 = Ok tt h4 ->
   updateAttributes D store setIdValue flag m uri data options (VFun f) s
   = Ok tt (mk_st h4 d2 (l2 ++ [ECall (VFun f) [e; o]]))%list) /\
  (js_seq (m_idName m) (VStr "_uri") = true ->
   updateAttributes D store setIdValue flag m uri data options (VFun f) s
   = Ok tt (mk_st h3 d2 (l2 ++ [ECall (VFun f) [e; o]]))%list).
Proof.
  intros Hp Hst Hr Hv Ho Hset.
  split; [intros h4 Hidn Hdel | intros Hidn].
  all: unfold updateAttributes, execute, emit, call_opt, call, bind, lift;
       rewrite Hp; cbn -[parseUpdateData];
       repeat rewrite <- app_assoc; cbn [app]; rewrite !length_app; cbn [length];
       rewrite Hst; cbn -[get_prop_in js_seq delete_prop];
       rewrite Hr; cbn -[get_prop_in js_seq delete_prop]; unfold get_prop; rewrite Hv;
       cbn -[get_prop_in js_seq delete_prop]; rewrite Ho; cbn -[get_prop_in js_seq delete_prop];
       rewrite andb_false_r; cbn -[get_prop_in js_seq delete_prop];
       rewrite Hset; cbn -[get_prop_in js_seq delete_prop]; rewrite Hidn;
       cbn -[get_prop_in delete_prop].
  - rewrite Hdel. cbn. reflexivity.
  - reflexivity.
Qed.

Lemma updateAll_answers_witness :
  updateAll unit (zero_update_store unit) (VBool false) any_regexp 3 Widget (VRef 0) (VRef 1)
    VUndef (VFun "cb") (mk_st update_heap tt [])
  = Ok tt (mk_st [plain [("name", VStr "x")]; plain [("name", VStr "y")]; plain [("name", VStr "x")];
                  plain [("$set", VRef 1)]; plain [("multi", VBool true); ("upsert", VBool false)];
                  plain [("n", VNum 0)]; plain [("result", VRef 5)]; plain [("count", VNum 0)]] tt
                 [EExec "update" [VRef 2; VRef 3; VRef 4]; ECall (VFun "cb") [VNull; VRef 7]]) /\
  updateAll unit failing_store (VBool false) any_regexp 3 Widget (VRef 0) (VRef 1)
    VUndef (VFun "cb") (mk_st update_heap tt [])
  = Ok tt (mk_st [plain [("name", VStr "x")]; plain [("name", VStr "y")]; plain [("name", VStr "x")];
                  plain [("$set", VRef 1)]; plain [("multi", VBool true); ("upsert", VBool false)]] tt
                 [EExec "update" [VRef 2; VRef 3; VRef 4]; ECall (VFun "cb") [VStr "boom"]]).
Proof.
  split.
  - exact (proj1 (proj2 (updateAll_answers unit (zero_update_store unit) (VBool false) any_regexp 3
             Widget (VRef 0) (VRef 1) VUndef "cb" (mk_st update_heap tt [])
             (VRef 2) [plain [("name", VStr "x")]; plain [("id", VNum 7); ("name", VStr "y")];
                       plain [("name", VStr "x")]]
             "id" [plain [("name", VStr "x")]; plain [("name", VStr "y")]; plain [("name", VStr "x")]]
             (VRef 3) [plain [("name", VStr "x")]; plain [("name", VStr "y")];
                       plain [("name", VStr "x")]; plain [("$set", VRef 1)]]
             VNull (VRef 6)
             [plain [("name", VStr "x")]; plain [("name", VStr "y")]; plain [("name", VStr "x")];
              plain [("$set", VRef 1)]; plain [("multi", VBool true); ("upsert", VBool false)];
              plain [("n", VNum 0)]; plain [("result", VRef 5)]] tt
             [EExec "update" [VRef 2; VRef 3; VRef 4]]
             eq_refl eq_refl eq_refl eq_refl eq_refl))
             (VRef 5) (VNum 0) eq_refl eq_refl eq_refl eq_refl).
  - exact (proj1 (updateAll_answers unit failing_store (VBool false) any_regexp 3
             Widget (VRef 0) (VRef 1) VUndef "cb" (mk_st update_heap tt [])
             (VRef 2) [plain [("name", VStr "x")]; plain [("id", VNum 7); ("name", VStr "y")];
                       plain [("name", VStr "x")]]
             "id" [plain [("name", VStr "x")]; plain [("name", VStr "y")]; plain [("name", VStr "x")]]
             (VRef 3) [plain [("name", VStr "x")]; plain [("name", VStr "y")];
                       plain [("name", VStr "x")]; plain [("$set", VRef 1)]]
             (VStr "boom") VUndef
             [plain [("name", VStr "x")]; plain [("name", VStr "y")]; plain [("name", VStr "x")];
              plain [("$set", VRef 1)]; plain [("multi", VBool true); ("upsert", VBool false)]] tt
             [EExec "update" [VRef 2; VRef 3; VRef 4]]
             eq_refl eq_refl eq_refl eq_refl eq_refl) eq_refl).
Defined.

Lemma updateAttributes_found_witness :
  updateAttributes (list val) uri_store base_setIdValue (VBool false) Widget
    (VStr "/widgets/1.json") (VRef 0) VUndef (VFun "cb") (mk_st attrs_heap [VStr "/widgets/1.json"] [])
  = Ok tt (mk_st [plain [("name", VStr "b")]; plain [("$set", VRef 0)];
                  plain [("_uri", VStr "/widgets/1.json")]; OArray [VStr "_uri"; VStr "asc"];
                  OArray [VRef 3]; plain []; plain [("value", VRef 7)];
                  plain [("id", VStr "/widgets/1.json")]] [VStr "/widgets/1.json"]
                 [EExec "findAndModify" [VRef 2; VRef 4; VRef 1; VRef 5];
                  ECall (VFun "cb") [VNull; VRef 7]]) /\
  updateAttributes (list val) uri_store base_setIdValue (VBool false) UriWidget
    (VStr "/widgets/1.json") (VRef 0) VUndef (VFun "cb") (mk_st attrs_heap [VStr "/widgets/1.json"] [])
  = Ok tt (mk_st [plain [("name", VStr "b")]; plain [("$set", VRef 0)];
            plain [("_uri", VStr "/widgets/1.json")]; OArray [VStr "_uri"; VStr "asc"];
            OArray [VRef 3]; plain []; plain [("value", VRef 7)];
            plain [("_uri", VStr "/widgets/1.json")]] [VStr "/widgets/1.json"]
                 [EExec "findAndModify" [VRef 2; VRef 4; VRef 1; VRef 5];
                  ECall (VFun "cb") [VNull; VRef 7]]).
Proof.
  split.
  - exact (proj1 (updateAttributes_found (list val) uri_store base_setIdValue (VBool false) Widget
             (VStr "/widgets/1.json") (VRef 0) VUndef "cb" (mk_st attrs_heap [VStr "/widgets/1.json"] [])
             (VRef 1) [plain [("name", VStr "b")]; plain [("$set", VRef 0)]] VNull (VRef 6)
             [plain [("name", VStr "b")]; plain [("$set", VRef 0)];
            plain [("_uri", VStr "/widgets/1.json")]; OArray [VStr "_uri"; VStr "asc"];
            OArray [VRef 3]; plain []; plain [("value", VRef 7)];
            plain [("_uri", VStr "/widgets/1.json")]] [VStr "/widgets/1.json"]
             [EExec "findAndModify" [VRef 2; VRef 4; VRef 1; VRef 5]] (VRef 7)
             [plain [("name", VStr "b")]; plain [("$set", VRef 0)];
              plain [("_uri", VStr "/widgets/1.json")]; OArray [VStr "_uri"; VStr "asc"];
              OArray [VRef 3]; plain []; plain [("value", VRef 7)];
              plain [("_uri", VStr "/widgets/1.json"); ("id", VStr "/widgets/1.json")]]
             eq_refl eq_refl eq_refl eq_refl eq_refl eq_refl)
             [plain [("name", VStr "b")]; plain [("$set", VRef 0)];
              plain [("_uri", VStr "/widgets/1.json")]; OArray [VStr "_uri"; VStr "asc"];
              OArray [VRef 3]; plain []; plain [("value", VRef 7)];
              plain [("id", VStr "/widgets/1.json")]]
             eq_refl eq_refl).
  - exact (proj2 (updateAttributes_found (list val) uri_store base_setIdValue (VBool false) UriWidget
             (VStr "/widgets/1.json") (VRef 0) VUndef "cb" (mk_st attrs_heap [VStr "/widgets/1.json"] [])
             (VRef 1) [plain [("name", VStr "b")]; plain [("$set", VRef 0)]] VNull (VRef 6)
             [plain [("name", VStr "b")]; plain [("$set", VRef 0)];
            plain [("_uri", VStr "/widgets/1.json")]; OArray [VStr "_uri"; VStr "asc"];
            OArray [VRef 3]; plain []; plain [("value", VRef 7)];
            plain [("_uri", VStr "/widgets/1.json")]] [VStr "/widgets/1.json"]
             [EExec "findAndModify" [VRef 2; VRef 4; VRef 1; VRef 5]] (VRef 7)
             [plain [("name", VStr "b")]; plain [("$set", VRef 0)];
            plain [("_uri", VStr "/widgets/1.json")]; OArray [VStr "_uri"; VStr "asc"];
            OArray [VRef 3]; plain []; plain [("value", VRef 7)];
            plain [("_uri", VStr "/widgets/1.json")]] eq_refl eq_refl eq_refl eq_refl eq_refl eq_refl) eq_refl).
Defined.
